(** * Verification of the archives document store

    A shallow embedding of the storage engine of [github.com/cxio/archives]:

    - [storage/docdef.go]       error values ([DocError]) and the metadata interface;
    - [storage/fss/fs.go]       the file system adapter ([FileSystem]);
    - [storage/fss/document.go] the document store ([DocumentStore]);
    - the [fs] driver           the path-template sharding engine
                                ([getResDirer], [resSubs]).

    Go strings are byte strings and are modelled by [string]; [[]byte] is
    [list Byte.byte]; [int] is [Z].  The operating system is an explicit
    state (a table of files and directories) that the adapter reads and
    updates; the [sync.Map] cache is a [gmap].  Log statements have no
    effect on what is returned or stored and are left out. *)

From Stdlib Require Import ZArith String Ascii List Bool Lia.
From stdpp Require Import gmap strings list.

Local Open Scope string_scope.
Local Open Scope Z_scope.

(** ** The parts of the Go library the store calls *)

Module Go.

(** [len(s)]. *)
Definition len (s : string) : Z := Z.of_nat (String.length s).

(** [s[lo:hi]] for [0 <= lo <= hi <= len(s)] (the callers check the bounds). *)
Definition slice (s : string) (lo hi : nat) : string :=
  String.substring lo (hi - lo) s.

Definition byte_of (c : ascii) : Z := Z.of_nat (nat_of_ascii c).
Definition ascii_of (b : Z) : ascii := ascii_of_nat (Z.to_nat b).

Definition is_upper (c : ascii) : bool := (65 <=? byte_of c) && (byte_of c <=? 90).
Definition is_lower (c : ascii) : bool := (97 <=? byte_of c) && (byte_of c <=? 122).

(** [strings.ToLower] and [strings.ToUpper].  Bytes of the ASCII range are
    mapped as Go does; bytes from 0x80 on are kept (the rune tables of
    package [unicode] are outside this model, and every identifier, year
    and language tag of the store is ASCII). *)
Fixpoint ToLower (s : string) : string :=
  match s with
  | EmptyString => EmptyString
  | String c r => String (if is_upper c then ascii_of (byte_of c + 32) else c) (ToLower r)
  end.

Fixpoint ToUpper (s : string) : string :=
  match s with
  | EmptyString => EmptyString
  | String c r => String (if is_lower c then ascii_of (byte_of c - 32) else c) (ToUpper r)
  end.

(** [strings.HasPrefix(s, p)]. *)
Fixpoint HasPrefix (s p : string) : bool :=
  match p, s with
  | EmptyString, _ => true
  | String _ _, EmptyString => false
  | String a p', String b s' => Ascii.eqb a b && HasPrefix s' p'
  end.

(** [strings.Index(s, sub)], [-1] when [sub] does not occur. *)
Fixpoint Index (s sub : string) : Z :=
  if HasPrefix s sub then 0
  else match s with
       | EmptyString => -1
       | String _ r => let i := Index r sub in if i <? 0 then -1 else i + 1
       end.

(** [strings.Contains(s, sub)]. *)
Definition Contains (s sub : string) : bool := 0 <=? Index s sub.

(** [strings.Split(s, sep)] for a one-byte separator. *)
Fixpoint Split (s : string) (sep : ascii) : list string :=
  match s with
  | EmptyString => [EmptyString]
  | String c r =>
      if Ascii.eqb c sep then EmptyString :: Split r sep
      else match Split r sep with
           | w :: ws => String c w :: ws
           | [] => [String c EmptyString]
           end
  end.

(** [strings.Join(elems, sep)]. *)
Definition Join (elems : list string) (sep : string) : string :=
  String.concat sep elems.

(** [strings.ReplaceAll(s, old, new)] for one-byte [old] and [new]. *)
Fixpoint ReplaceAll (s : string) (old new : ascii) : string :=
  match s with
  | EmptyString => EmptyString
  | String c r => String (if Ascii.eqb c old then new else c) (ReplaceAll r old new)
  end.

(** *** strconv *)

Definition digit_char (d : Z) : ascii := ascii_of (48 + d).

Fixpoint utoa (fuel : nat) (n : Z) (acc : string) : string :=
  match fuel with
  | O => acc
  | S f =>
      let acc' := String (digit_char (n mod 10)) acc in
      if n <? 10 then acc' else utoa f (n / 10) acc'
  end.

(** Decimal digits of a natural number [n]. *)
Definition FormatUint (n : Z) : string :=
  utoa (S (Z.to_nat (Z.log2 n))) n EmptyString.

(** [strconv.Itoa]. *)
Definition Itoa (n : Z) : string :=
  if n <? 0 then String "-" (FormatUint (- n)) else FormatUint n.

(** Value of a digit in the given base, [None] for any other byte. *)
Definition digit_val (base : Z) (c : ascii) : option Z :=
  let b := byte_of c in
  let v := if (48 <=? b) && (b <=? 57) then b - 48
           else if (97 <=? b) && (b <=? 122) then b - 97 + 10
           else if (65 <=? b) && (b <=? 90) then b - 65 + 10
           else 36 in
  if v <? base then Some v else None.

Fixpoint parse_digits (base : Z) (s : string) (acc : Z) : option Z :=
  match s with
  | EmptyString => Some acc
  | String c r =>
      match digit_val base c with
      | Some v => parse_digits base r (acc * base + v)
      | None => None
      end
  end.

Inductive parse_error := ErrSyntax | ErrRange.

Definition max_int : Z := 2 ^ 63 - 1.
Definition min_int : Z := - 2 ^ 63.

(** [strconv.ParseInt(s, base, 0)] for an explicit base (10 or 16): an
    optional sign, then at least one digit; the value must fit [int]
    (64 bits).  Go returns the nearest bound together with a range error
    and 0 together with a syntax error. *)
Definition ParseInt (s : string) (base : Z) : Z * option parse_error :=
  let '(neg, body) :=
    match s with
    | String "+" r => (false, r)
    | String "-" r => (true, r)
    | _ => (false, s)
    end in
  match body with
  | EmptyString => (0, Some ErrSyntax)
  | _ =>
      match parse_digits base body 0 with
      | None => (0, Some ErrSyntax)
      | Some u =>
          let v := if neg then - u else u in
          if max_int <? v then (max_int, Some ErrRange)
          else if v <? min_int then (min_int, Some ErrRange)
          else (v, None)
      end
  end.

(** [strconv.Atoi]. *)
Definition Atoi (s : string) : Z * option parse_error := ParseInt s 10.

Fixpoint zeros (n : nat) : string :=
  match n with O => EmptyString | S k => String "0" (zeros k) end.

(** [fmt.Sprintf("%03d", v)]: the sign, then zeros up to three columns. *)
Definition Sprintf_03d (v : Z) : string :=
  let sign := if v <? 0 then "-" else "" in
  let digits := FormatUint (Z.abs v) in
  sign +:+ zeros (3 - String.length sign - String.length digits) +:+ digits.

(** *** path/filepath (Unix) *)

Definition clean_step (rooted : bool) (out : list string) (elem : string) : list string :=
  if String.eqb elem "" || String.eqb elem "." then out
  else if String.eqb elem ".." then
    match out with
    | top :: rest => if String.eqb top ".." then elem :: out else rest
    | [] => if rooted then [] else [elem]
    end
  else elem :: out.

(** [filepath.Clean]: empty and [.] elements are dropped, [..] removes the
    element before it, [..] at the start of a rooted path is dropped and
    kept at the start of a relative one. *)
Definition Clean (path : string) : string :=
  if String.eqb path "" then "."
  else
    let rooted := HasPrefix path "/" in
    let out := rev (fold_left (clean_step rooted) (Split path "/") []) in
    let body := Join out "/" in
    if rooted then "/" +:+ body
    else if String.eqb body "" then "." else body.

Fixpoint drop_empty (elems : list string) : list string :=
  match elems with
  | e :: r => if String.eqb e "" then drop_empty r else elems
  | [] => []
  end.

(** [filepath.Join]: the elements from the first non-empty one on, joined
    by [/] and cleaned; the empty string when there is none. *)
Definition filepath_Join (elems : list string) : string :=
  match drop_empty elems with
  | [] => ""
  | rest => Clean (Join rest "/")
  end.

(** [filepath.Dir]: the path up to its last separator, cleaned. *)
Definition Dir (path : string) : string :=
  match removelast (Split path "/") with
  | [] => Clean ""
  | front => Clean (Join front "/" +:+ "/")
  end.

(** [filepath.Base] of a clean path: its last element. *)
Definition Base (path : string) : string :=
  List.last (Split path "/") "".

End Go.

Abbreviation bytes := (list Byte.byte).

(** ** Errors ([storage/docdef.go] and the Go library) *)

(** [storage.OpType]. *)
Inductive OpType := OPStore | OPGet | OPDelete | OPHead.

Definition OpType_string (t : OpType) : string :=
  match t with
  | OPStore => "store"
  | OPGet => "get"
  | OPDelete => "delete"
  | OPHead => "head"
  end.

Inductive errno := ENOENT | ENOTDIR | EISDIR | ENOTEMPTY | EINVAL | EBUSY.

Definition errno_string (e : errno) : string :=
  match e with
  | ENOENT => "no such file or directory"
  | ENOTDIR => "not a directory"
  | EISDIR => "is a directory"
  | ENOTEMPTY => "directory not empty"
  | EINVAL => "invalid argument"
  | EBUSY => "device or resource busy"
  end.

(** The error values that reach the store:
    - [DocError]   is [*storage.DocError];
    - [Errorf f e] is [fmt.Errorf(f + ": %w", e)];
    - [PathError]  is [*fs.PathError], returned by package [os];
    - [NumError]   is [*strconv.NumError];
    - [ErrorString] is [errors.New] and whatever a [Marshal] returns. *)
Inductive error :=
| DocError (Type_ : OpType) (Message : string)
| Errorf (format : string) (err : error)
| PathError (Op Path : string) (Err : errno)
| NumError (Func Num : string) (Err : Go.parse_error)
| ErrorString (s : string).

(** [storage.NewDocError]. *)
Definition NewDocError (name : OpType) (msg : string) : error := DocError name msg.

Definition quote : string := String (ascii_of_nat 34) EmptyString.

(** The method [Error()] of each error value. *)
Fixpoint Error (e : error) : string :=
  match e with
  | DocError t m => OpType_string t +:+ ": " +:+ m
  | Errorf f e' => f +:+ ": " +:+ Error e'
  | PathError op p en => op +:+ " " +:+ p +:+ ": " +:+ errno_string en
  | NumError fn num pe =>
      "strconv." +:+ fn +:+ ": parsing " +:+ quote +:+ num +:+ quote +:+ ": " +:+
      match pe with
      | Go.ErrSyntax => "invalid syntax"
      | Go.ErrRange => "value out of range"
      end
  | ErrorString s => s
  end.

(** How the HTTP handlers tell a not-found failure from any other:
    [strings.Contains(err.Error(), "not found")]. *)
Definition is_not_found (e : error) : bool := Go.Contains (Error e) "not found".

(** ** The operating system

    A table from clean path names to what is there, and the calendar year
    of the clock.  Names are resolved lexically ([Go.Clean]): there are no
    symbolic links, the empty name denotes nothing, and the working
    directory [.] and the root [/] always exist. *)

Inductive inode := File (data : bytes) | Directory.

Record OS := mkOS {
  files : gmap string inode;
  clock : string  (* what [time.Now().Format("2006")] returns *)
}.

Module os.

Definition boot (year : string) : OS :=
  mkOS (<["." := Directory]> (<["/" := Directory]> ∅)) year.

Definition set_files (o : OS) (t : gmap string inode) : OS := mkOS t (clock o).

Fixpoint ancestors_aux (fuel : nat) (p : string) (acc : list string) : list string :=
  match fuel with
  | O => acc
  | S f =>
      let d := Go.Dir p in
      if String.eqb d p then acc else ancestors_aux f d (d :: acc)
  end.

(** The directories above a clean path, outermost first. *)
Definition ancestors (p : string) : list string :=
  ancestors_aux (S (String.length p)) p [].

Definition is_file (t : gmap string inode) (p : string) : bool :=
  match t !! p with Some (File _) => true | _ => false end.

(** [os.Stat]: what is at [name], [ENOTDIR] when a file stands where a
    directory of the path should be, [ENOENT] when nothing is there. *)
Definition Stat (name : string) (o : OS) : inode + errno :=
  if String.eqb name "" then inr ENOENT
  else
    let p := Go.Clean name in
    match files o !! p with
    | Some n => inl n
    | None => if existsb (is_file (files o)) (ancestors p) then inr ENOTDIR else inr ENOENT
    end.

(** [os.IsNotExist] on the error of [Stat]. *)
Definition IsNotExist (e : errno) : bool :=
  match e with ENOENT => true | _ => false end.

Fixpoint mkdir_chain (chain : list string) (t : gmap string inode)
  : option error * gmap string inode :=
  match chain with
  | [] => (None, t)
  | q :: rest =>
      match t !! q with
      | Some Directory => mkdir_chain rest t
      | Some (File _) => (Some (PathError "mkdir" q ENOTDIR), t)
      | None => mkdir_chain rest (<[q := Directory]> t)
      end
  end.

(** [os.MkdirAll]: creates the directory and every missing directory above
    it; fails when a file is in the way. *)
Definition MkdirAll (name : string) (o : OS) : option error * OS :=
  if String.eqb name "" then (Some (PathError "mkdir" name ENOENT), o)
  else
    let p := Go.Clean name in
    let '(err, t) := mkdir_chain (ancestors p ++ [p]) (files o) in
    (err, set_files o t).

(** [os.WriteFile]: creates or truncates the file; the directory it goes
    into must exist. *)
Definition WriteFile (name : string) (data : bytes) (o : OS) : option error * OS :=
  let p := Go.Clean name in
  match Stat name o with
  | inl Directory => (Some (PathError "open" name EISDIR), o)
  | inl (File _) => (None, set_files o (<[p := File data]> (files o)))
  | inr ENOENT =>
      match Stat (Go.Dir p) o with
      | inl Directory =>
          if String.eqb name "" then (Some (PathError "open" name ENOENT), o)
          else (None, set_files o (<[p := File data]> (files o)))
      | inl (File _) => (Some (PathError "open" name ENOTDIR), o)
      | inr e => (Some (PathError "open" name e), o)
      end
  | inr e => (Some (PathError "open" name e), o)
  end.

(** [os.ReadFile]. *)
Definition ReadFile (name : string) (o : OS) : bytes * option error :=
  match Stat name o with
  | inl (File data) => (data, None)
  | inl Directory => ([], Some (PathError "read" name EISDIR))
  | inr e => ([], Some (PathError "open" name e))
  end.

(** The names directly inside directory [p], with their nodes. *)
Definition children (p : string) (t : gmap string inode) : list (string * inode) :=
  List.filter (fun e => negb (String.eqb (fst e) p) && String.eqb (Go.Dir (fst e)) p)
              (map_to_list t).

(** [os.Remove]: removes a file or an empty directory. *)
Definition Remove (name : string) (o : OS) : option error * OS :=
  let p := Go.Clean name in
  if String.eqb p "." then (Some (PathError "remove" name EINVAL), o)
  else if String.eqb p "/" then (Some (PathError "remove" name EBUSY), o)
  else
    match Stat name o with
    | inl (File _) => (None, set_files o (delete p (files o)))
    | inl Directory =>
        match children p (files o) with
        | [] => (None, set_files o (delete p (files o)))
        | _ :: _ => (Some (PathError "remove" name ENOTEMPTY), o)
        end
    | inr e => (Some (PathError "remove" name e), o)
    end.

Fixpoint insert_sorted (e : string * bool) (l : list (string * bool)) : list (string * bool) :=
  match l with
  | [] => [e]
  | x :: r => if String.leb (fst e) (fst x) then e :: l else x :: insert_sorted e r
  end.

(** [os.ReadDir]: the entries of a directory sorted by name, each with its
    [IsDir()]. *)
Definition ReadDir (name : string) (o : OS) : list (string * bool) * option error :=
  match Stat name o with
  | inl Directory =>
      let entries :=
        List.map (fun e => (Go.Base (fst e),
                            match snd e with Directory => true | File _ => false end))
                 (children (Go.Clean name) (files o)) in
      (fold_right insert_sorted [] entries, None)
  | inl (File _) => ([], Some (PathError "open" name ENOTDIR))
  | inr e => ([], Some (PathError "open" name e))
  end.

End os.

(** ** The file system adapter ([storage/fss/fs.go]) *)

Record FileSystem := mkFileSystem { rootDir : string }.

Module FileSystem.

(** [filePath]: the path below the root directory. *)
Definition filePath (fs : FileSystem) (path : string) : string :=
  Go.filepath_Join [rootDir fs; path].

(** [Exists]: true unless [os.Stat] reports that nothing is there. *)
Definition Exists (fs : FileSystem) (path : string) (o : OS) : bool :=
  match os.Stat (filePath fs path) o with
  | inl _ => true
  | inr e => negb (os.IsNotExist e)
  end.

(** [Write]: creates the directories of the path, then the file. *)
Definition Write (fs : FileSystem) (path : string) (data : bytes) (o : OS)
  : option error * OS :=
  let path := filePath fs path in
  let dir := Go.Dir path in
  match os.MkdirAll dir o with
  | (Some err, o1) => (Some (Errorf "failed to create directory" err), o1)
  | (None, o1) =>
      match os.WriteFile path data o1 with
      | (Some err, o2) => (Some (Errorf "failed to write file" err), o2)
      | (None, o2) => (None, o2)
      end
  end.

(** [Read].  The path is joined to the root, and [Exists], which joins its
    argument to the root itself, is then called on the result. *)
Definition Read (fs : FileSystem) (path : string) (o : OS) : bytes * option error :=
  let path := filePath fs path in
  if negb (Exists fs path o)
  then ([], Some (NewDocError OPGet ("file not found: " +:+ path)))
  else
    match os.ReadFile path o with
    | (_, Some err) => ([], Some (Errorf "failed to read file" err))
    | (data, None) => (data, None)
    end.

(** [Remove], with the same existence test as [Read]. *)
Definition Remove (fs : FileSystem) (path : string) (o : OS) : option error * OS :=
  let path := filePath fs path in
  if negb (Exists fs path o)
  then (Some (NewDocError OPDelete ("file not found: " +:+ path)), o)
  else
    match os.Remove path o with
    | (Some err, o1) => (Some (Errorf "failed to remove file" err), o1)
    | (None, o1) => (None, o1)
    end.

(** [List]: the names of the entries of a directory that are not
    directories, with the same existence test as [Read]. *)
Definition List (fs : FileSystem) (dirPath : string) (o : OS) : list string * option error :=
  let dirPath := filePath fs dirPath in
  if negb (Exists fs dirPath o)
  then ([], Some (NewDocError OPHead ("directory not found: " +:+ dirPath)))
  else
    match os.ReadDir dirPath o with
    | (_, Some err) => ([], Some (Errorf "failed to read directory" err))
    | (entries, None) =>
        (List.map fst (List.filter (fun e => negb (snd e)) entries), None)
    end.

(** [NewFileSystem]: makes sure the root directory exists. *)
Definition NewFileSystem (rootDir : string) (o : OS) : option FileSystem * option error * OS :=
  match os.MkdirAll rootDir o with
  | (Some err, o1) => (None, Some (Errorf "failed to create root directory" err), o1)
  | (None, o1) => (Some (mkFileSystem rootDir), None, o1)
  end.

End FileSystem.

(** ** Metadata ([storage/docdef.go], [storage/fss/document.go]) *)

(** [storage.BaseMeta]. *)
Record BaseMeta := mkBaseMeta {
  DocType : string;
  DocTitle : string;
  DocSummary : string;
  DocUploader : string;
  DocUploadTime : Z;
  DocSize : Z
}.

(** [fss.DocumentMeta]. *)
Record DocumentMeta := mkDocumentMeta {
  Base : BaseMeta;
  Language : string;
  Author : string;
  Copyright : string;
  CreateTime : string
}.

Definition zeroMeta : DocumentMeta :=
  mkDocumentMeta (mkBaseMeta "" "" "" "" 0 0) "" "" "" "".

(** [storage.DocumentMetaer], the interface the store receives metadata
    through.  The store calls [Marshal] and [Unmarshal] only; the field
    accessors of the interface are used by the HTTP handlers. *)
Class DocumentMetaer (M : Type) := {
  Marshal : M -> bytes * option error;
  Unmarshal : bytes -> M -> M * option error
}.

(** An implementation of the interface that marshals to a fixed result. *)
Record fixedMeta := mkFixedMeta { marshalled : bytes * option error }.

#[export] Instance fixedMeta_Metaer : DocumentMetaer fixedMeta := {
  Marshal m := marshalled m;
  Unmarshal _ m := (m, None)
}.

(** ** The document store ([storage/fss/document.go]) *)

Record DocumentStore := mkDocumentStore {
  lookbackYears : Z;
  existbackYears : Z;
  fs : FileSystem;
  cache : gmap string string  (* [sync.Map]: document id to year *)
}.

(** [fss.DocumentPaths]. *)
Record DocumentPaths := mkDocumentPaths {
  DirPath : string;
  DataPath : string;
  MetaPath : string
}.

(** [calculatePaths]: three levels from the first three bytes of the id,
    then a directory named by the whole id; the file name is the first 16
    characters of the id.  (The method does not use its receiver.) *)
Definition calculatePaths (year docID : string) : DocumentPaths :=
  let '(byte1, byte2, byte3) :=
    if 6 <=? Go.len docID then
      ("0x" +:+ Go.slice docID 0 2,
       Go.ToUpper (Go.slice docID 2 4),
       Go.Sprintf_03d (fst (Go.ParseInt (Go.slice docID 4 6) 16)))
    else ("0xff__", "FF__", "255__") in
  let dirPath := Go.filepath_Join [year; byte1; byte2; byte3; docID] in
  let fname := if 16 <? Go.len docID then Go.slice docID 0 16 else docID in
  {| DataPath := Go.filepath_Join [dirPath; fname +:+ ".data"];
     MetaPath := Go.filepath_Join [dirPath; fname +:+ ".meta"];
     DirPath := dirPath |}.

(** [normalizeLang]: ["en-US"] becomes ["en_us"]. *)
Definition normalizeLang (lang : string) : string :=
  if String.eqb lang "" then ""
  else Go.ToLower (Go.ReplaceAll lang "-" "_").

Definition set_lookbackYears (ds : DocumentStore) (n : Z) : DocumentStore :=
  mkDocumentStore n (existbackYears ds) (fs ds) (cache ds).

Definition set_existbackYears (ds : DocumentStore) (n : Z) : DocumentStore :=
  mkDocumentStore (lookbackYears ds) n (fs ds) (cache ds).

Definition set_cache (ds : DocumentStore) (c : gmap string string) : DocumentStore :=
  mkDocumentStore (lookbackYears ds) (existbackYears ds) (fs ds) c.

(** [NewDocumentStore]: only [fs] and [cache] are given a value; the two
    depths keep the zero value of [int]. *)
Definition NewDocumentStore (rootPath : string) (o : OS)
  : option DocumentStore * option error * OS :=
  match FileSystem.NewFileSystem rootPath o with
  | (Some fs, None, o1) => (Some (mkDocumentStore 0 0 fs ∅), None, o1)
  | (_, Some err, o1) => (None, Some (Errorf "failed to initialize file system" err), o1)
  | (None, None, o1) => (None, None, o1)
  end.

(** [SetLookbackYears]. *)
Definition SetLookbackYears (years : Z) (ds : DocumentStore) : DocumentStore :=
  if (years <=? 0) || (1000 <? years) then ds
  else set_lookbackYears ds years.

(** [SetExistbackYears]. *)
Definition SetExistbackYears (years : Z) (ds : DocumentStore) : DocumentStore :=
  if (years <=? 0) || (1000 <? years) then ds
  else set_existbackYears ds years.

Definition is_cached (ds : DocumentStore) (docID : string) : bool :=
  match cache ds !! docID with Some _ => true | None => false end.

Definition year_or_now (year : string) (o : OS) : string :=
  if String.eqb year "" then clock o else year.

Section Store.

Context {M : Type} `{DocumentMetaer M}.

(** [Store]. *)
Definition Store (year docID : string) (data : bytes) (meta : M)
    (ds : DocumentStore) (o : OS) : string * option error * DocumentStore * OS :=
  if is_cached ds docID
  then ("", Some (NewDocError OPStore "document already exists"), ds, o)
  else
    let year := year_or_now year o in
    let paths := calculatePaths year docID in
    if FileSystem.Exists (fs ds) (DataPath paths) o
    then ("", Some (NewDocError OPStore "document already exists"), ds, o)
    else
      match FileSystem.Write (fs ds) (DataPath paths) data o with
      | (Some err, o1) => ("", Some (Errorf "failed to write document data" err), ds, o1)
      | (None, o1) =>
          match Marshal meta with
          | (_, Some err) => ("", Some (Errorf "failed to marshal metadata" err), ds, o1)
          | (metaBytes, None) =>
              match FileSystem.Write (fs ds) (MetaPath paths) metaBytes o1 with
              | (Some err, o2) => ("", Some (Errorf "failed to write metadata" err), ds, o2)
              | (None, o2) => (year, None, set_cache ds (<[docID := year]> (cache ds)), o2)
              end
          end
      end.

(** [StoreMeta]. *)
Definition StoreMeta (year docID : string) (meta : M) (lang : string)
    (ds : DocumentStore) (o : OS) : string * option error * DocumentStore * OS :=
  let year := year_or_now year o in
  let paths := calculatePaths year docID in
  if negb (FileSystem.Exists (fs ds) (DataPath paths) o)
  then ("", Some (NewDocError OPStore "document not found"), ds, o)
  else
    match Marshal meta with
    | (_, Some err) => ("", Some (Errorf "failed to marshal metadata" err), ds, o)
    | (metaBytes, None) =>
        let lang := normalizeLang lang in
        let langMetaPath :=
          if negb (String.eqb lang "") then MetaPath paths +:+ "." +:+ lang
          else MetaPath paths in
        match FileSystem.Write (fs ds) langMetaPath metaBytes o with
        | (Some err, o1) => ("", Some (Errorf "failed to write metadata" err), ds, o1)
        | (None, o1) => (year, None, ds, o1)
        end
    end.

End Store.

(** The loop of [findDocumentYear]: [n] iterations are left, [i] is the
    loop counter. *)
Fixpoint find_loop (ds : DocumentStore) (docID : string) (start : Z) (o : OS)
    (n : nat) (i : Z) (currentYear : string) : string * option error :=
  match n with
  | O => ("", Some (NewDocError OPGet "document not found"))
  | S n' =>
      if FileSystem.Exists (fs ds) (DataPath (calculatePaths currentYear docID)) o
      then (currentYear, None)
      else find_loop ds docID start o n' (i + 1) (Go.Itoa (start - i))
  end.

(** [findDocumentYear]: [for i := 1; i <= maxYears; i++]. *)
Definition findDocumentYear (year docID : string) (maxYears : Z)
    (ds : DocumentStore) (o : OS) : string * option error :=
  let currentYear := year_or_now year o in
  match Go.Atoi currentYear with
  | (_, Some pe) => ("", Some (Errorf "invalid year" (NumError "Atoi" currentYear pe)))
  | (start, None) => find_loop ds docID start o (Z.to_nat maxYears) 1 currentYear
  end.

(** [Exists]. *)
Definition Exists (year docID : string) (ds : DocumentStore) (o : OS) : bool :=
  let docID := Go.ToLower docID in
  if is_cached ds docID then true
  else FileSystem.Exists (fs ds) (DataPath (calculatePaths year docID)) o.

(** [ExistsFromYear]. *)
Definition ExistsFromYear (year docID : string) (ds : DocumentStore) (o : OS)
  : string * bool :=
  let docID := Go.ToLower docID in
  match cache ds !! docID with
  | Some y => (y, true)
  | None =>
      match findDocumentYear year docID (existbackYears ds) ds o with
      | (_, Some _) => ("", false)
      | (year, None) => (year, true)
      end
  end.

(** [getDocumentData]. *)
Definition getDocumentData (year docID : string) (ds : DocumentStore) (o : OS)
  : bytes * option error :=
  let paths := calculatePaths year docID in
  match FileSystem.Read (fs ds) (DataPath paths) o with
  | (_, Some err) => ([], Some (Errorf "failed to read document data" err))
  | (data, None) => (data, None)
  end.

(** [deleteMetaAll]. *)
Fixpoint remove_metas (ds : DocumentStore) (dirPath : string) (files : list string) (o : OS)
  : option error * OS :=
  match files with
  | [] => (None, o)
  | file :: rest =>
      if 0 <? Go.Index file ".meta" then
        match FileSystem.Remove (fs ds) (Go.filepath_Join [dirPath; file]) o with
        | (Some err, o1) => (Some (Errorf "failed to remove metadata" err), o1)
        | (None, o1) => remove_metas ds dirPath rest o1
        end
      else remove_metas ds dirPath rest o
  end.

Definition deleteMetaAll (dirPath : string) (ds : DocumentStore) (o : OS)
  : option error * OS :=
  match FileSystem.List (fs ds) dirPath o with
  | (_, Some err) => (Some (Errorf "failed to list metadata" err), o)
  | (files, None) => remove_metas ds dirPath files o
  end.

(** [Delete].  The result of [deleteMetaAll] is not looked at. *)
Definition Delete (year docID : string) (ds : DocumentStore) (o : OS)
  : option error * DocumentStore * OS :=
  let paths := calculatePaths year docID in
  match FileSystem.Remove (fs ds) (DataPath paths) o with
  | (Some err, o1) => (Some (Errorf "failed to remove document data" err), ds, o1)
  | (None, o1) =>
      let '(_, o2) := deleteMetaAll (DirPath paths) ds o1 in
      match FileSystem.Remove (fs ds) (DirPath paths) o2 with
      | (Some err, o3) => (Some (Errorf "failed to remove document directory" err), ds, o3)
      | (None, o3) => (None, ds, o3)
      end
  end.

(** [DeleteMeta]. *)
Definition DeleteMeta (year docID lang : string) (ds : DocumentStore) (o : OS)
  : option error * DocumentStore * OS :=
  let paths := calculatePaths year docID in
  let lang := normalizeLang lang in
  let target :=
    if negb (String.eqb lang "") then MetaPath paths +:+ "." +:+ lang
    else MetaPath paths in
  match FileSystem.Remove (fs ds) target o with
  | (Some err, o1) => (Some (Errorf "failed to remove metadata" err), ds, o1)
  | (None, o1) => (None, ds, o1)
  end.

Section Fetch.

(** [json.Unmarshal] into a [DocumentMeta]: the decoder of the Go library,
    whatever it makes of the bytes. *)
Variable json_Unmarshal : bytes -> DocumentMeta -> DocumentMeta * option error.

(** [getMetaWithYear]. *)
Definition getMetaWithYear (year docID lang : string) (ds : DocumentStore) (o : OS)
  : option DocumentMeta * option error :=
  let paths := calculatePaths year docID in
  let metaPath :=
    if negb (String.eqb lang "") then
      let langMetaPath := MetaPath paths +:+ "." +:+ lang in
      if FileSystem.Exists (fs ds) langMetaPath o then langMetaPath else ""
    else "" in
  let metaPath := if String.eqb metaPath "" then MetaPath paths else metaPath in
  match FileSystem.Read (fs ds) metaPath o with
  | (_, Some err) => (None, Some (Errorf "failed to read metadata" err))
  | (metaBytes, None) =>
      match json_Unmarshal metaBytes zeroMeta with
      | (_, Some err) => (None, Some (Errorf "failed to unmarshal metadata" err))
      | (meta, None) => (Some meta, None)
      end
  end.

(** [Get]. *)
Definition Get (year docID lang : string) (ds : DocumentStore) (o : OS)
  : bytes * option DocumentMeta * option error :=
  let docID := Go.ToLower docID in
  match getDocumentData year docID ds o with
  | (_, Some err) => ([], None, Some (Errorf "failed to get document data" err))
  | (data, None) =>
      match getMetaWithYear year docID lang ds o with
      | (_, Some err) => (data, None, Some (Errorf "failed to get document metadata" err))
      | (meta, None) => (data, meta, None)
      end
  end.

(** The year [GetFromYear] and [GetMetaFromYear] go on with: the cached
    one, or the one the backward walk finds. *)
Definition resolveYear (year docID : string) (ds : DocumentStore) (o : OS)
  : string * option error :=
  match cache ds !! docID with
  | Some y => (y, None)
  | None => findDocumentYear year docID (lookbackYears ds) ds o
  end.

(** [GetFromYear]. *)
Definition GetFromYear (year docID lang : string) (ds : DocumentStore) (o : OS)
  : bytes * option DocumentMeta * string * option error :=
  let docID := Go.ToLower docID in
  match resolveYear year docID ds o with
  | (_, Some err) => ([], None, "", Some (Errorf "document not found" err))
  | (year, None) =>
      match getDocumentData year docID ds o with
      | (data, Some err) => (data, None, year, Some (Errorf "failed to get document data" err))
      | (data, None) =>
          match getMetaWithYear year docID lang ds o with
          | (_, Some err) => (data, None, year, Some (Errorf "failed to get metadata" err))
          | (meta, None) => (data, meta, year, None)
          end
      end
  end.

(** [GetMeta]. *)
Definition GetMeta (year docID lang : string) (ds : DocumentStore) (o : OS)
  : option DocumentMeta * option error :=
  let docID := Go.ToLower docID in
  match getMetaWithYear year docID lang ds o with
  | (_, Some err) => (None, Some (Errorf "failed to get document metadata" err))
  | (meta, None) => (meta, None)
  end.

(** [GetMetaFromYear]. *)
Definition GetMetaFromYear (year docID lang : string) (ds : DocumentStore) (o : OS)
  : option DocumentMeta * string * option error :=
  let docID := Go.ToLower docID in
  match resolveYear year docID ds o with
  | (_, Some err) => (None, "", Some (Errorf "document not found" err))
  | (year, None) =>
      match getMetaWithYear year docID (normalizeLang lang) ds o with
      | (meta, Some err) => (meta, year, Some (Errorf "failed to get metadata" err))
      | (meta, None) => (meta, year, None)
      end
  end.

End Fetch.

(** ** Sequences of calls on one store

    The calls that change the store or the disk, with the metadata given
    by what its [Marshal] returns, and their effect on the pair of both. *)

Inductive call :=
| CallSetLookbackYears (years : Z)
| CallSetExistbackYears (years : Z)
| CallStore (year docID : string) (data : bytes) (meta : fixedMeta)
| CallStoreMeta (year docID : string) (meta : fixedMeta) (lang : string)
| CallDelete (year docID : string)
| CallDeleteMeta (year docID lang : string).

Definition exec (s : DocumentStore * OS) (c : call) : DocumentStore * OS :=
  let '(ds, o) := s in
  match c with
  | CallSetLookbackYears years => (SetLookbackYears years ds, o)
  | CallSetExistbackYears years => (SetExistbackYears years ds, o)
  | CallStore year docID data meta =>
      let '(_, _, ds1, o1) := Store year docID data meta ds o in (ds1, o1)
  | CallStoreMeta year docID meta lang =>
      let '(_, _, ds1, o1) := StoreMeta year docID meta lang ds o in (ds1, o1)
  | CallDelete year docID =>
      let '(_, ds1, o1) := Delete year docID ds o in (ds1, o1)
  | CallDeleteMeta year docID lang =>
      let '(_, ds1, o1) := DeleteMeta year docID lang ds o in (ds1, o1)
  end.

Definition run (calls : list call) (s : DocumentStore * OS) : DocumentStore * OS :=
  fold_left exec calls s.

(** A setter call whose argument is within [1..1000]. *)
Definition sets_depth (c : call) : bool :=
  match c with
  | CallSetLookbackYears years | CallSetExistbackYears years =>
      (1 <=? years) && (years <=? 1000)
  | _ => false
  end.

(** ** The path-template sharding engine (the [fs] driver) *)

Module fsdriver.

(** What a call comes to: a value, or a run-time panic. *)
Inductive outcome (A : Type) :=
| Returns (a : A)
| Panics (msg : string).
Arguments Returns {A} a.
Arguments Panics {A} msg.

(** [id[n]]: the byte at index [n], counted from 0. *)
Definition index (id : string) (n : Z) : option Z :=
  if n <? 0 then None
  else match String.get (Z.to_nat n) id with
       | Some c => Some (Go.byte_of c)
       | None => None
       end.

(** [string(b)] for a byte [b]: the UTF-8 encoding of the code point [b]. *)
Definition string_of_byte (b : Z) : string :=
  if b <? 128 then String (Go.ascii_of b) EmptyString
  else String (Go.ascii_of (Z.lor 192 (Z.shiftr b 6)))
         (String (Go.ascii_of (Z.lor 128 (Z.land b 63))) EmptyString).

(** [getResDirer(n)], applied to an identifier. *)
Definition getResDirer (n : Z) (id : string) : outcome string :=
  if Go.len id <? n then Returns ""
  else match index id n with
       | Some b => Returns (string_of_byte (Z.lor b 32))
       | None => Panics "index out of range"
       end.

(** [resSubs]: [res] holds the position each handler is bound to, [None]
    for an entry that [Parse] has not filled. *)
Record resSubs := mkResSubs {
  res : list (option Z);
  tmp : list string
}.

Fixpoint parse_tokens (tokens : list string) : list (option Z) * option error :=
  match tokens with
  | [] => ([], None)
  | s :: rest =>
      match Go.Atoi s with
      | (_, Some pe) => (List.map (fun _ => None) tokens, Some (NumError "Atoi" s pe))
      | (n, None) =>
          if n <=? 0
          then (List.map (fun _ => None) tokens, Some (ErrorString "invalid res-subs defined"))
          else let '(r, err) := parse_tokens rest in (Some n :: r, err)
      end
  end.

(** [resSubs.Parse]. *)
Definition Parse (cfg : string) (rs : resSubs) : option error * resSubs :=
  let tmp := Go.Split cfg "/" in
  match parse_tokens tmp with
  | (r, Some err) => (Some err, mkResSubs r (fsdriver.tmp rs))
  | (r, None) => (None, mkResSubs r tmp)
  end.

Fixpoint segments (handlers : list (option Z)) (hash : string) : outcome (list string) :=
  match handlers with
  | [] => Returns []
  | None :: _ => Panics "nil function call"
  | Some n :: rest =>
      match getResDirer n hash with
      | Panics msg => Panics msg
      | Returns seg =>
          match segments rest hash with
          | Panics msg => Panics msg
          | Returns segs => Returns (seg :: segs)
          end
      end
  end.

(** [resSubs.Dir]: every handler writes its segment to [tmp], which has
    the length of [res]; the segments are then joined. *)
Definition Dir (rs : resSubs) (hash : string) : outcome string :=
  match segments (res rs) hash with
  | Panics msg => Panics msg
  | Returns segs => Returns (Go.filepath_Join segs)
  end.

(** The default of the driver: [ResPath = "1/2/3"]. *)
Definition ResPath : string := "1/2/3".

End fsdriver.

(** ** The years of the backward walk *)

(** The year [findDocumentYear] tests in iteration [j], counted from 0: the
    start year as it was given, then the decimal form of [start - j]. *)
Definition year_back (start : Z) (year : string) (j : Z) : string :=
  if j =? 0 then year else Go.Itoa (start - j).

(** The data path of [docID] under [year] is on disk. *)
Definition data_exists (year docID : string) (ds : DocumentStore) (o : OS) : bool :=
  FileSystem.Exists (fs ds) (DataPath (calculatePaths year docID)) o.

(** What the walk returns when it finds nothing. *)
Definition not_found_year : string * option error :=
  ("", Some (NewDocError OPGet "document not found")).

(** The two depths as a pair. *)
Definition depths (ds : DocumentStore) : Z * Z := (lookbackYears ds, existbackYears ds).

(** ** The adapter seen from the disk *)

(** The clean name [Write] puts its file under. *)
Definition target (f : FileSystem) (path : string) : string :=
  Go.Clean (FileSystem.filePath f path).

(** The root absorbs a second join of [path]: joining the root to the
    joined path gives the joined path again (as for the roots [.] and [/]). *)
Definition absorbed (f : FileSystem) (path : string) : Prop :=
  FileSystem.filePath f (FileSystem.filePath f path) = FileSystem.filePath f path.

(** [s] ends with [suf]. *)
Definition ends_with (s suf : string) : Prop := exists pre, s = pre +:+ suf.

(** An element without separator. *)
Definition slash_free (c : string) : Prop := Go.Split c "/" = [c].

(** An element that [Clean] keeps and that a later [..] may remove. *)
Definition ordinary (c : string) : Prop :=
  slash_free c /\ String.eqb c "" = false /\ String.eqb c "." = false /\
  String.eqb c ".." = false.

(** The elements [Clean] has collected for a relative path, last one
    first: ordinary ones on top of leading [..]. *)
Definition relative_stack (out : list string) : Prop :=
  exists nn dd, out = (nn ++ dd)%list /\ Forall ordinary nn /\ Forall (fun c => c = "..") dd.

(** ** The overlay rule in the words of the specification *)

(** The file a request for [lang] is answered from: the one with the
    language suffix if it is present, else the default one. *)
Definition overlay_path (metaPath lang : string) (f : FileSystem) (o : OS) : string :=
  if negb (String.eqb lang "") && FileSystem.Exists f (metaPath +:+ "." +:+ lang) o
  then metaPath +:+ "." +:+ lang
  else metaPath.

(** Reading and decoding a metadata file as [getMetaWithYear] does. *)
Definition decode_meta
    (json_Unmarshal : bytes -> DocumentMeta -> DocumentMeta * option error)
    (r : bytes * option error) : option DocumentMeta * option error :=
  match r with
  | (_, Some err) => (None, Some (Errorf "failed to read metadata" err))
  | (metaBytes, None) =>
      match json_Unmarshal metaBytes zeroMeta with
      | (_, Some err) => (None, Some (Errorf "failed to unmarshal metadata" err))
      | (meta, None) => (Some meta, None)
      end
  end.

(** ** Values used in the worked examples *)

(** The payload ["hello"] and its SHA3-256 digest in lowercase hex, which
    the upload handler uses as document id. *)
Definition hello : bytes := String.list_byte_of_string "hello".
Definition hello_id : string :=
  "3338be694f50c5f338814986cdf0686453a888b84f424d792af4b9202398f392".
Definition HELLO_ID : string := Go.ToUpper hello_id.

(** Metadata that marshals to [{}], and metadata whose [Marshal] fails. *)
Definition plain_meta : fixedMeta :=
  mkFixedMeta (String.list_byte_of_string "{}", None).
Definition broken_meta : fixedMeta :=
  mkFixedMeta ([], Some (ErrorString "json: unsupported value")).

(** The root directory the service uses when none is configured
    ([defaultDataDir] of package [config]). *)
Definition defaultDataDir : string := "./data".

(** A decoder that accepts everything, for closed examples. *)
Definition lenient_json (data : bytes) (m : DocumentMeta) : DocumentMeta * option error :=
  (m, None).

(** A store that has just been created over [rootPath], before any call. *)
Definition fresh (rootPath : string) : DocumentStore :=
  mkDocumentStore 0 0 (mkFileSystem rootPath) ∅.

(** The disk after [NewDocumentStore] over [rootPath], starting from a
    disk that holds nothing, in the year 2025. *)
Definition opened (rootPath : string) : OS :=
  snd (NewDocumentStore rootPath (os.boot "2025")).

(** Store and disk after ["hello"] has been stored under 2024. *)
Definition stored (rootPath : string) : DocumentStore * OS :=
  run [CallStore "2024" hello_id hello plain_meta] (fresh rootPath, opened rootPath).

(** The same with a French metadata variant added. *)
Definition stored_fr (rootPath : string) : DocumentStore * OS :=
  run [CallStoreMeta "2024" hello_id plain_meta "fr"] (stored rootPath).

(** Store and disk after a [Store] whose metadata does not marshal. *)
Definition half_stored (rootPath : string) : DocumentStore * OS :=
  run [CallStore "2024" hello_id hello broken_meta] (fresh rootPath, opened rootPath).

(** Store and disk after the document and its metadata have been deleted. *)
Definition deleted (rootPath : string) : DocumentStore * OS :=
  run [CallDelete "2024" hello_id] (stored_fr rootPath).

(** The paths of the document below the root of the store. *)
Definition hello_paths : DocumentPaths := calculatePaths "2024" hello_id.

(** The error of the adapter for a path it does not find. *)
Definition file_not_found (t : OpType) (path : string) : error :=
  NewDocError t ("file not found: " +:+ path).

(** Calls that leave both depths alone: two rejected setters and a store. *)
Definition unset_calls : list call :=
  [CallSetLookbackYears 0; CallSetExistbackYears 1001;
   CallStore "2024" hello_id hello plain_meta].

(** The name of the files of a document, without the ending, as
    [calculatePaths] forms it. *)
Definition fname_of (docID : string) : string :=
  if 16 <? Go.len docID then Go.slice docID 0 16 else docID.

(** ** The registry of storage drivers ([store/common.go]) *)

Module store.

Section Registry.

(** What a connection gives access to ([Storer]) is left open. *)
Variable Storer : Type.

(** [Driver]: an interface with the one method [Conn]; [Config] is a
    string. *)
Record Driver := mkDriver { Conn : string -> option Storer * option error }.

(** [Register], on the package variable [drivers]; a nil driver is [None]. *)
Definition Register (name : string) (driver : option Driver) (drivers : gmap string Driver)
  : fsdriver.outcome (gmap string Driver) :=
  match driver with
  | None => fsdriver.Panics "store driver is nil."
  | Some dr =>
      match drivers !! name with
      | Some _ => fsdriver.Panics (name +:+ " already exists in store.drivers.")
      | None => fsdriver.Returns (<[name := dr]> drivers)
      end
  end.

(** [Open]. *)
Definition Open (driverName cfg : string) (drivers : gmap string Driver)
  : fsdriver.outcome (option Storer * option error) :=
  match drivers !! driverName with
  | None => fsdriver.Panics (driverName +:+ " driver not exist with store.")
  | Some dr =>
      match Conn dr cfg with
      | (_, Some err) => fsdriver.Returns (None, Some err)
      | (op, None) => fsdriver.Returns (op, None)
      end
  end.

(** [sort.Strings]: ascending in the order of the bytes. *)
Fixpoint insert_name (name : string) (l : list string) : list string :=
  match l with
  | [] => [name]
  | x :: r => if String.leb name x then name :: l else x :: insert_name name r
  end.

Definition sort_Strings (l : list string) : list string := fold_right insert_name [] l.

(** [Drivers]: the names of the map, sorted. *)
Definition Drivers (drivers : gmap string Driver) : list string :=
  sort_Strings (List.map fst (map_to_list drivers)).

End Registry.

Arguments Conn {Storer} _ _.
Arguments Register {Storer} _ _ _.
Arguments Open {Storer} _ _ _.
Arguments Drivers {Storer} _.

(** Ascending: each name is at most the next. *)
Fixpoint ascending (l : list string) : bool :=
  match l with
  | a :: (b :: _) as r => String.leb a b && ascending r
  | _ => true
  end.

End store.

(** ** The configuration ([_v0/config/base.go]) and the store of [main] *)

Module config.

Definition defaultLogDir : string := "./_logs".
Definition defaultLogLevel : string := "info".
Definition lookbackYears : Z := 10.
Definition existbackYears : Z := 100.
(** [10 * time.Minute], in nanoseconds. *)
Definition maxReadTimeout : Z := 10 * 60 * 1000000000.
Definition maxWriteTimeout : Z := 10 * 60 * 1000000000.

Record Config := mkConfig {
  ServePort : Z;
  StorageRootPath : string;
  Language : string;
  LogLevel : string;
  LogRootPath : string;
  FindMaxYears : Z;
  HeadMaxYears : Z;
  ReadTimeout : Z;
  WriteTimeout : Z
}.

(** [var config Config]. *)
Definition zero : Config := mkConfig 0 "" "" "" "" 0 0 0 0.

(** [os.UserHomeDir] on Unix, from the value of [$HOME]. *)
Definition UserHomeDir (HOME : string) : string * option error :=
  if String.eqb HOME "" then ("", Some (ErrorString "$HOME is not defined"))
  else (HOME, None).

(** [ExpandPath].  [path[:2]] needs two bytes. *)
Definition ExpandPath (HOME path : string) : fsdriver.outcome string :=
  if Go.len path <? 2 then fsdriver.Panics "slice bounds out of range"
  else if String.eqb (Go.slice path 0 2) "~/" then
    match UserHomeDir HOME with
    | (_, Some _) => fsdriver.Returns path
    | (home, None) =>
        fsdriver.Returns (Go.filepath_Join [home; Go.slice path 2 (String.length path)])
    end
  else fsdriver.Returns path.

Section Load.

(** The decoder of the configuration file and the environment. *)
Variable hjson_Unmarshal : bytes -> Config -> Config * option error.
Variable HOME : string.

(** The default values [Load] fills in. *)
Definition with_defaults (c : Config) : Config :=
  mkConfig
    (if ServePort c =? 0 then 8080 else ServePort c)
    (if String.eqb (StorageRootPath c) "" then defaultDataDir else StorageRootPath c)
    (Language c)
    (if String.eqb (LogLevel c) "" then defaultLogLevel else LogLevel c)
    (if String.eqb (LogRootPath c) "" then defaultLogDir else LogRootPath c)
    (if FindMaxYears c <=? 0 then lookbackYears else FindMaxYears c)
    (if HeadMaxYears c <=? 0 then existbackYears else HeadMaxYears c)
    (if ReadTimeout c =? 0 then maxReadTimeout else ReadTimeout c)
    (if WriteTimeout c =? 0 then maxWriteTimeout else WriteTimeout c).

(** [Load]. *)
Definition Load (path : string) (o : OS) : fsdriver.outcome (option Config * option error) :=
  match os.ReadFile path o with
  | (_, Some err) => fsdriver.Returns (None, Some err)
  | (configFile, None) =>
      match hjson_Unmarshal configFile zero with
      | (_, Some err) => fsdriver.Returns (None, Some err)
      | (config, None) =>
          let config := with_defaults config in
          match ExpandPath HOME (StorageRootPath config) with
          | fsdriver.Panics msg => fsdriver.Panics msg
          | fsdriver.Returns storage =>
              match ExpandPath HOME (LogRootPath config) with
              | fsdriver.Panics msg => fsdriver.Panics msg
              | fsdriver.Returns logs =>
                  fsdriver.Returns (Some (mkConfig (ServePort config) storage (Language config)
                                   (LogLevel config) logs (FindMaxYears config)
                                   (HeadMaxYears config) (ReadTimeout config)
                                   (WriteTimeout config)), None)
              end
          end
      end
  end.

(** [Init]. *)
Definition Init (path : string) (o : OS) : fsdriver.outcome (option Config * option error) :=
  match ExpandPath HOME path with
  | fsdriver.Panics msg => fsdriver.Panics msg
  | fsdriver.Returns path => Load path o
  end.

End Load.



End config.

(** * Properties *)

(** Closes a goal [lhs = rhs] between closed terms by evaluating both sides. *)
Ltac evaluate :=
  lazymatch goal with |- _ = ?r => vm_cast_no_check (@eq_refl _ r) end.

(** ** Errors *)

Lemma Errorf_not_found (e : error) :
  is_not_found (Errorf "document not found" e) = true.
Proof. reflexivity. Qed.

Lemma DocError_not_found (t : OpType) :
  is_not_found (NewDocError t "document not found") = true.
Proof. destruct t; reflexivity. Qed.

(** ** Store refuses what is already there *)

(** C5. A [Store] of an id that is cached, or whose data path exists on
    disk in that year, fails with the conflict error
    "store: document already exists" and changes neither the store nor the
    disk, so the bytes stored before stay as they are. *)
Theorem Store_conflict {M : Type} `{DocumentMetaer M}
    (year docID : string) (data : bytes) (meta : M) (ds : DocumentStore) (o : OS) :
  is_cached ds docID = true \/
  FileSystem.Exists (fs ds) (DataPath (calculatePaths (year_or_now year o) docID)) o = true ->
  exists e,
    Store year docID data meta ds o = ("", Some e, ds, o) /\
    Error e = "store: document already exists".
Proof.
  intros Hstored. exists (NewDocError OPStore "document already exists").
  split; [| reflexivity].
  unfold Store. destruct (is_cached ds docID) eqn:Hc; [reflexivity |].
  destruct Hstored as [Habs | Hdisk]; [discriminate |].
  cbv zeta. rewrite Hdisk. reflexivity.
Qed.

Lemma Store_conflict_witness :
  (is_cached (fst (stored defaultDataDir)) hello_id = true /\
   exists e,
     Store "2024" hello_id hello plain_meta (fst (stored defaultDataDir)) (snd (stored defaultDataDir))
       = ("", Some e, fst (stored defaultDataDir), snd (stored defaultDataDir)) /\
     Error e = "store: document already exists") /\
  (FileSystem.Exists (fs (fresh defaultDataDir))
     (DataPath (calculatePaths (year_or_now "2024" (snd (stored defaultDataDir))) hello_id))
     (snd (stored defaultDataDir)) = true /\
   exists e,
     Store "2024" hello_id hello plain_meta (fresh defaultDataDir) (snd (stored defaultDataDir))
       = ("", Some e, fresh defaultDataDir, snd (stored defaultDataDir)) /\
     Error e = "store: document already exists").
Proof.
  split.
  - split; [vm_compute; reflexivity |].
    apply Store_conflict. left. vm_compute. reflexivity.
  - split; [vm_compute; reflexivity |].
    apply Store_conflict. right. vm_compute. reflexivity.
Defined.

(** ** Metadata cannot precede its document *)

(** C7. When the data path of (year, id) does not exist, [StoreMeta] fails
    with "store: document not found", which the handlers classify as
    not-found, and changes neither the store nor the disk. *)
Theorem StoreMeta_without_document {M : Type} `{DocumentMetaer M}
    (year docID : string) (meta : M) (lang : string) (ds : DocumentStore) (o : OS) :
  FileSystem.Exists (fs ds) (DataPath (calculatePaths (year_or_now year o) docID)) o = false ->
  exists e,
    StoreMeta year docID meta lang ds o = ("", Some e, ds, o) /\
    Error e = "store: document not found" /\
    is_not_found e = true.
Proof.
  intros Hnone. exists (NewDocError OPStore "document not found").
  unfold StoreMeta. cbv zeta. rewrite Hnone. cbn [negb].
  repeat split; reflexivity.
Qed.

Lemma StoreMeta_without_document_witness :
  FileSystem.Exists (fs (fresh defaultDataDir))
    (DataPath (calculatePaths (year_or_now "" (opened defaultDataDir)) hello_id))
    (opened defaultDataDir) = false /\
  exists e,
    StoreMeta "" hello_id plain_meta "fr" (fresh defaultDataDir) (opened defaultDataDir)
    = ("", Some e, fresh defaultDataDir, opened defaultDataDir) /\
    Error e = "store: document not found" /\
    is_not_found e = true.
Proof.
  split; [vm_compute; reflexivity |].
  apply StoreMeta_without_document. vm_compute. reflexivity.
Defined.

(** ** A store whose depths were never set *)

Lemma SetLookbackYears_rejects (years : Z) (ds : DocumentStore) :
  years <= 0 \/ 1000 < years -> SetLookbackYears years ds = ds.
Proof.
  intros Hout. unfold SetLookbackYears.
  destruct (years <=? 0) eqn:H0; [reflexivity |].
  destruct (1000 <? years) eqn:H1; [reflexivity | lia].
Qed.

Lemma SetExistbackYears_rejects (years : Z) (ds : DocumentStore) :
  years <= 0 \/ 1000 < years -> SetExistbackYears years ds = ds.
Proof.
  intros Hout. unfold SetExistbackYears.
  destruct (years <=? 0) eqn:H0; [reflexivity |].
  destruct (1000 <? years) eqn:H1; [reflexivity | lia].
Qed.

Lemma NewDocumentStore_depths (rootPath : string) (o : OS) (ds : DocumentStore) (o1 : OS) :
  NewDocumentStore rootPath o = (Some ds, None, o1) ->
  lookbackYears ds = 0 /\ existbackYears ds = 0.
Proof.
  unfold NewDocumentStore.
  destruct (FileSystem.NewFileSystem rootPath o) as [[[f |] [err |]] o'];
    intros Hnew; inversion Hnew; split; reflexivity.
Qed.

(** Only a setter that accepts its argument changes a depth. *)
Lemma exec_depths (s : DocumentStore * OS) (c : call) :
  sets_depth c = false -> depths (fst (exec s c)) = depths (fst s).
Proof.
  destruct s as [ds o]. destruct c as [years | years | y d b m | y d m l | y d | y d l];
    cbn [sets_depth exec fst]; intros Hc.
  - rewrite SetLookbackYears_rejects; [reflexivity | lia].
  - rewrite SetExistbackYears_rejects; [reflexivity | lia].
  - unfold Store. repeat case_match; simplify_eq; reflexivity.
  - unfold StoreMeta. repeat case_match; simplify_eq; reflexivity.
  - unfold Delete. repeat case_match; simplify_eq; reflexivity.
  - unfold DeleteMeta. repeat case_match; simplify_eq; reflexivity.
Qed.

Lemma run_depths (calls : list call) (s : DocumentStore * OS) :
  forallb (fun c => negb (sets_depth c)) calls = true ->
  depths (fst (run calls s)) = depths (fst s).
Proof.
  revert s. induction calls as [| c calls IH]; intros s Hcalls; [reflexivity |].
  cbn [forallb] in Hcalls. apply andb_prop in Hcalls as [Hc Hrest].
  apply negb_true_iff in Hc.
  cbn [run fold_left]. fold (run calls (exec s c)).
  rewrite IH by assumption. apply exec_depths, Hc.
Qed.

(** With depth 0 the walk looks at no year: it fails whatever is on disk. *)
Lemma findDocumentYear_zero (year docID : string) (ds : DocumentStore) (o : OS) :
  exists e, findDocumentYear year docID 0 ds o = ("", Some e).
Proof.
  unfold findDocumentYear.
  destruct (Go.Atoi (year_or_now year o)) as [start [pe |]]; eauto.
Qed.

(** C10. A store returned by [NewDocumentStore] has both depths 0, and they
    stay 0 through any calls among which no setter receives a value within
    1..1000.  For an id that is not cached, [GetFromYear] and
    [GetMetaFromYear] then fail with a not-found error and [ExistsFromYear]
    answers false, whatever the disk holds and whatever the start year:
    the backward walk examines no year, not even the first. *)
Theorem unset_depths_find_nothing
    (json_Unmarshal : bytes -> DocumentMeta -> DocumentMeta * option error)
    (rootPath : string) (o0 o1 : OS) (ds : DocumentStore) (calls : list call)
    (year docID lang : string) (o : OS) :
  NewDocumentStore rootPath o0 = (Some ds, None, o1) ->
  forallb (fun c => negb (sets_depth c)) calls = true ->
  cache (fst (run calls (ds, o1))) !! Go.ToLower docID = None ->
  lookbackYears (fst (run calls (ds, o1))) = 0 /\
  existbackYears (fst (run calls (ds, o1))) = 0 /\
  (exists e,
     GetFromYear json_Unmarshal year docID lang (fst (run calls (ds, o1))) o
       = ([], None, "", Some e) /\ is_not_found e = true) /\
  (exists e,
     GetMetaFromYear json_Unmarshal year docID lang (fst (run calls (ds, o1))) o
       = (None, "", Some e) /\ is_not_found e = true) /\
  ExistsFromYear year docID (fst (run calls (ds, o1))) o = ("", false).
Proof.
  intros Hnew Hcalls Hmiss.
  pose proof (run_depths calls (ds, o1) Hcalls) as Hd.
  destruct (NewDocumentStore_depths _ _ _ _ Hnew) as [Hl He].
  unfold depths in Hd. cbn [fst] in Hd. rewrite Hl, He in Hd.
  injection Hd as Hl' He'.
  set (ds' := fst (run calls (ds, o1))) in *.
  split; [exact Hl' |]. split; [exact He' |].
  destruct (findDocumentYear_zero year (Go.ToLower docID) ds' o) as [e Hfind].
  repeat split.
  - exists (Errorf "document not found" e). split; [| apply Errorf_not_found].
    unfold GetFromYear, resolveYear. cbv zeta. rewrite Hmiss, Hl', Hfind. reflexivity.
  - exists (Errorf "document not found" e). split; [| apply Errorf_not_found].
    unfold GetMetaFromYear, resolveYear. cbv zeta. rewrite Hmiss, Hl', Hfind. reflexivity.
  - unfold ExistsFromYear. cbv zeta. rewrite Hmiss, He', Hfind. reflexivity.
Qed.

Lemma unset_depths_find_nothing_witness :
  NewDocumentStore defaultDataDir (os.boot "2025")
    = (Some (fresh defaultDataDir), None, opened defaultDataDir) /\
  forallb (fun c => negb (sets_depth c)) unset_calls = true /\
  cache (fst (run unset_calls (fresh defaultDataDir, opened defaultDataDir))) !! Go.ToLower "C0FFEE" = None /\
  ExistsFromYear "2024" "C0FFEE" (fst (run unset_calls (fresh defaultDataDir, opened defaultDataDir)))
    (snd (run unset_calls (fresh defaultDataDir, opened defaultDataDir))) = ("", false).
Proof.
  assert (Hnew : NewDocumentStore defaultDataDir (os.boot "2025")
                 = (Some (fresh defaultDataDir), None, opened defaultDataDir))
    by (vm_compute; reflexivity).
  assert (Hcalls : forallb (fun c => negb (sets_depth c)) unset_calls = true)
    by (vm_compute; reflexivity).
  assert (Hmiss : cache (fst (run unset_calls (fresh defaultDataDir, opened defaultDataDir)))
                    !! Go.ToLower "C0FFEE" = None)
    by (vm_compute; reflexivity).
  split; [exact Hnew |]. split; [exact Hcalls |]. split; [exact Hmiss |].
  exact (proj2 (proj2 (proj2 (proj2
    (unset_depths_find_nothing lenient_json defaultDataDir (os.boot "2025")
       (opened defaultDataDir)
       (fresh defaultDataDir) unset_calls "2024" "C0FFEE" ""
       (snd (run unset_calls (fresh defaultDataDir, opened defaultDataDir)))
       Hnew Hcalls Hmiss))))).
Defined.

(** ** The adapter looks for what it reads below the root twice

    [Read], [Remove] and [List] join the root to their path and pass the
    result to [Exists], which joins the root again.  Over the default root
    the file that [Write] has created is therefore never found. *)

Lemma filePath_twice :
  FileSystem.filePath (mkFileSystem defaultDataDir) (DataPath hello_paths)
    = "data/" +:+ DataPath hello_paths /\
  FileSystem.filePath (mkFileSystem defaultDataDir)
    (FileSystem.filePath (mkFileSystem defaultDataDir) (DataPath hello_paths))
    = "data/data/" +:+ DataPath hello_paths.
Proof. split; evaluate. Qed.

(** C1. Over the default root [./data], storing ["hello"] under its id in
    2024 succeeds and the bytes are on disk, yet [Get] for the same year and
    id returns no data and a not-found error. *)
Theorem Get_after_Store_default_root
    (json_Unmarshal : bytes -> DocumentMeta -> DocumentMeta * option error) :
  NewDocumentStore defaultDataDir (os.boot "2025")
    = (Some (fresh defaultDataDir), None, opened defaultDataDir) /\
  Store "2024" hello_id hello plain_meta (fresh defaultDataDir) (opened defaultDataDir)
    = ("2024", None, fst (stored defaultDataDir), snd (stored defaultDataDir)) /\
  os.ReadFile ("data/" +:+ DataPath hello_paths) (snd (stored defaultDataDir))
    = (hello, None) /\
  Get json_Unmarshal "2024" hello_id "" (fst (stored defaultDataDir)) (snd (stored defaultDataDir))
    = ([], None,
       Some (Errorf "failed to get document data"
              (Errorf "failed to read document data"
                (file_not_found OPGet ("data/" +:+ DataPath hello_paths))))) /\
  is_not_found (file_not_found OPGet ("data/" +:+ DataPath hello_paths)) = true.
Proof. repeat (split; [evaluate |]). evaluate. Qed.

(** C2. Over the default root, with lookback depth 1 and the document
    stored under the start year itself (N = 0 < K = 1) and not cached, the
    backward walk finds the year, yet [GetFromYear] returns no data and a
    not-found error. *)
Theorem GetFromYear_default_root
    (json_Unmarshal : bytes -> DocumentMeta -> DocumentMeta * option error) :
  NewDocumentStore defaultDataDir (snd (stored defaultDataDir))
    = (Some (fresh defaultDataDir), None, snd (stored defaultDataDir)) /\
  lookbackYears (SetLookbackYears 1 (fresh defaultDataDir)) = 1 /\
  findDocumentYear "2024" hello_id 1 (SetLookbackYears 1 (fresh defaultDataDir))
    (snd (stored defaultDataDir)) = ("2024", None) /\
  GetFromYear json_Unmarshal "2024" hello_id ""
    (SetLookbackYears 1 (fresh defaultDataDir)) (snd (stored defaultDataDir))
    = ([], None, "2024",
       Some (Errorf "failed to get document data"
              (Errorf "failed to read document data"
                (file_not_found OPGet ("data/" +:+ DataPath hello_paths))))).
Proof. repeat (split; [evaluate |]). evaluate. Qed.

(** C6. Over the default root, with the default metadata and a French
    variant both on disk, a metadata request fails with a not-found error
    whether it asks for French, for German (not stored) or for no
    language. *)
Theorem GetMeta_default_root
    (json_Unmarshal : bytes -> DocumentMeta -> DocumentMeta * option error) :
  StoreMeta "2024" hello_id plain_meta "fr" (fst (stored defaultDataDir)) (snd (stored defaultDataDir))
    = ("2024", None, fst (stored_fr defaultDataDir), snd (stored_fr defaultDataDir)) /\
  FileSystem.Exists (fs (fst (stored_fr defaultDataDir))) (MetaPath hello_paths)
    (snd (stored_fr defaultDataDir)) = true /\
  FileSystem.Exists (fs (fst (stored_fr defaultDataDir))) (MetaPath hello_paths +:+ ".fr")
    (snd (stored_fr defaultDataDir)) = true /\
  GetMeta json_Unmarshal "2024" hello_id "fr" (fst (stored_fr defaultDataDir)) (snd (stored_fr defaultDataDir))
    = (None,
       Some (Errorf "failed to get document metadata"
              (Errorf "failed to read metadata"
                (file_not_found OPGet ("data/" +:+ MetaPath hello_paths +:+ ".fr"))))) /\
  GetMeta json_Unmarshal "2024" hello_id "de" (fst (stored_fr defaultDataDir)) (snd (stored_fr defaultDataDir))
    = (None,
       Some (Errorf "failed to get document metadata"
              (Errorf "failed to read metadata"
                (file_not_found OPGet ("data/" +:+ MetaPath hello_paths))))) /\
  GetMeta json_Unmarshal "2024" hello_id "" (fst (stored_fr defaultDataDir)) (snd (stored_fr defaultDataDir))
    = (None,
       Some (Errorf "failed to get document metadata"
              (Errorf "failed to read metadata"
                (file_not_found OPGet ("data/" +:+ MetaPath hello_paths))))).
Proof. repeat (split; [evaluate |]). evaluate. Qed.

(** C8. Over the default root, a [Store] whose metadata does not marshal
    returns an error after the payload has been written; the payload stays
    on disk and [Exists] reports it, yet [Get] returns no data and a
    not-found error. *)
Theorem Get_after_partial_Store_default_root
    (json_Unmarshal : bytes -> DocumentMeta -> DocumentMeta * option error) :
  Store "2024" hello_id hello broken_meta (fresh defaultDataDir) (opened defaultDataDir)
    = ("", Some (Errorf "failed to marshal metadata" (ErrorString "json: unsupported value")),
       fst (half_stored defaultDataDir), snd (half_stored defaultDataDir)) /\
  os.ReadFile ("data/" +:+ DataPath hello_paths) (snd (half_stored defaultDataDir))
    = (hello, None) /\
  Exists "2024" hello_id (fst (half_stored defaultDataDir)) (snd (half_stored defaultDataDir))
    = true /\
  Get json_Unmarshal "2024" hello_id "" (fst (half_stored defaultDataDir)) (snd (half_stored defaultDataDir))
    = ([], None,
       Some (Errorf "failed to get document data"
              (Errorf "failed to read document data"
                (file_not_found OPGet ("data/" +:+ DataPath hello_paths))))).
Proof. repeat (split; [evaluate |]). evaluate. Qed.

(** ** Delete leaves the cache entry behind *)

(** C3. Over the root [.], after the document and a French metadata
    variant were stored through this store, [Delete] returns no error and
    the data path is gone from the disk, yet [Exists] still answers true,
    for the year of the document and for any other year. *)
Theorem Exists_after_Delete
    (json_Unmarshal : bytes -> DocumentMeta -> DocumentMeta * option error) :
  Delete "2024" hello_id (fst (stored_fr ".")) (snd (stored_fr "."))
    = (None, fst (deleted "."), snd (deleted ".")) /\
  FileSystem.Exists (fs (fst (deleted "."))) (DataPath hello_paths) (snd (deleted "."))
    = false /\
  cache (fst (deleted ".")) !! hello_id = Some "2024" /\
  Exists "2024" hello_id (fst (deleted ".")) (snd (deleted ".")) = true /\
  Exists "1999" hello_id (fst (deleted ".")) (snd (deleted ".")) = true /\
  Get json_Unmarshal "2024" hello_id "" (fst (deleted ".")) (snd (deleted "."))
    = ([], None,
       Some (Errorf "failed to get document data"
              (Errorf "failed to read document data"
                (file_not_found OPGet (DataPath hello_paths))))).
Proof. repeat (split; [evaluate |]). evaluate. Qed.

(** ** Letter case of the id *)

(** C4. [Store] and [StoreMeta] use the id as it is given, [Exists] and
    [Get] its lowercase form, and the paths of an id and of its uppercase
    form differ.  With the document stored under its lowercase id, [Exists]
    finds it by the uppercase id, [StoreMeta] with the uppercase id fails
    not-found, and [Store] with the uppercase id writes a second copy. *)
Theorem id_case_is_kept_by_Store :
  calculatePaths "2024" HELLO_ID <> calculatePaths "2024" hello_id /\
  DirPath (calculatePaths "2024" HELLO_ID) = "2024/0x33/38/190/" +:+ HELLO_ID /\
  DirPath (calculatePaths "2024" hello_id) = "2024/0x33/38/190/" +:+ hello_id /\
  Exists "2024" HELLO_ID (fst (stored defaultDataDir)) (snd (stored defaultDataDir)) = true /\
  fst (fst (StoreMeta "2024" HELLO_ID plain_meta "fr"
              (fst (stored defaultDataDir)) (snd (stored defaultDataDir))))
    = ("", Some (NewDocError OPStore "document not found")) /\
  fst (fst (Store "2024" HELLO_ID hello plain_meta
              (fst (stored defaultDataDir)) (snd (stored defaultDataDir))))
    = ("2024", None).
Proof.
  split.
  - intros Heq.
    apply (f_equal (fun p => String.eqb (DirPath p) (DirPath (calculatePaths "2024" hello_id))))
      in Heq.
    vm_compute in Heq. discriminate Heq.
  - repeat (split; [evaluate |]). evaluate.
Qed.

(** ** Identifier tokens of the sharding engine *)

Lemma get_below_length (s : string) (k : nat) :
  (k < String.length s)%nat -> exists c, String.get k s = Some c.
Proof.
  revert k. induction s as [| c r IH]; intros k Hk; cbn in *; [lia |].
  destruct k as [| k]; [eauto |]. apply IH. lia.
Qed.

Lemma get_at_length (s : string) : String.get (String.length s) s = None.
Proof. induction s as [| c r IH]; [reflexivity | exact IH]. Qed.

(** What [getResDirer] does for a positive position [n]: below the length
    it takes the byte at index [n] counted from 0, at the length it
    panics, above the length it returns the empty segment. *)
Lemma getResDirer_cases (n : Z) (id : string) :
  0 < n ->
  (n < Go.len id ->
     exists c, String.get (Z.to_nat n) id = Some c /\
               fsdriver.getResDirer n id
                 = fsdriver.Returns (fsdriver.string_of_byte (Z.lor (Go.byte_of c) 32))) /\
  (n = Go.len id -> fsdriver.getResDirer n id = fsdriver.Panics "index out of range") /\
  (Go.len id < n -> fsdriver.getResDirer n id = fsdriver.Returns "").
Proof.
  intros Hpos. unfold fsdriver.getResDirer, fsdriver.index, Go.len.
  repeat split.
  - intros Hlt.
    destruct (get_below_length id (Z.to_nat n)) as [c Hget]; [lia |].
    exists c. split; [exact Hget |].
    destruct (Z.of_nat (String.length id) <? n) eqn:Hc; [lia |].
    destruct (n <? 0) eqn:Hn; [lia |].
    rewrite Hget. reflexivity.
  - intros ->.
    destruct (Z.of_nat (String.length id) <? Z.of_nat (String.length id)) eqn:Hc; [lia |].
    destruct (Z.of_nat (String.length id) <? 0) eqn:Hn; [lia |].
    rewrite Nat2Z.id, get_at_length. reflexivity.
  - intros Hgt. destruct (Z.of_nat (String.length id) <? n) eqn:Hc; [reflexivity | lia].
Qed.

(** C9. With the default template [1/2/3] parsed, the token 1 applied to
    ["abc"] gives the second character, not the first, and the token 3, which
    is the length of ["abc"], makes the generator panic, as does the whole
    template.  With a ["0"] put before the identifier, as the comment on
    [getResDirer] has it, the token 1 gives the first character and the
    token 4, one beyond the length of ["abc"], panics. *)
Theorem getResDirer_off_by_one :
  fsdriver.Parse fsdriver.ResPath (fsdriver.mkResSubs [] [])
    = (None, fsdriver.mkResSubs [Some 1; Some 2; Some 3] ["1"; "2"; "3"]) /\
  fsdriver.getResDirer 1 "abc" = fsdriver.Returns "b" /\
  fsdriver.getResDirer 3 "abc" = fsdriver.Panics "index out of range" /\
  fsdriver.Dir (fsdriver.mkResSubs [Some 1; Some 2; Some 3] ["1"; "2"; "3"]) "abc"
    = fsdriver.Panics "index out of range" /\
  fsdriver.getResDirer 1 "0abc" = fsdriver.Returns "a" /\
  fsdriver.getResDirer 4 "0abc" = fsdriver.Panics "index out of range".
Proof. repeat (split; [evaluate |]). evaluate. Qed.

(** ** The backward walk and its depth *)

(** The loop, entered with counter [i] and [n] iterations to go, tests the
    years [i-1 .. i-2+n] back from the start.  If, among those, the
    document is under the year [N] back and no other, the loop returns
    that year when it is within reach and fails otherwise. *)
Lemma find_loop_boundary (ds : DocumentStore) (docID : string) (start : Z) (year : string)
    (o : OS) (N : Z) (n : nat) :
  forall i : Z,
    1 <= i -> i - 1 <= N ->
    (forall j, i - 1 <= j < i - 1 + Z.of_nat n ->
       (data_exists (year_back start year j) docID ds o = true <-> j = N)) ->
    find_loop ds docID start o n i (year_back start year (i - 1))
      = if N <? i - 1 + Z.of_nat n then (year_back start year N, None) else not_found_year.
Proof.
  induction n as [| n IH]; intros i Hi HN Hdisk.
  - cbn [find_loop]. rewrite (proj2 (Z.ltb_ge N (i - 1 + Z.of_nat 0))) by lia. reflexivity.
  - cbn [find_loop]. fold (data_exists (year_back start year (i - 1)) docID ds o).
    destruct (data_exists (year_back start year (i - 1)) docID ds o) eqn:Hhere.
    + apply Hdisk in Hhere; [| lia]. subst N.
      rewrite (proj2 (Z.ltb_lt (i - 1) (i - 1 + Z.of_nat (S n)))) by lia. reflexivity.
    + assert (Hne : i - 1 <> N).
      { intros Heq. apply Hdisk in Heq; [| lia]. congruence. }
      assert (Hnext : Go.Itoa (start - i) = year_back start year (i + 1 - 1)).
      { unfold year_back. rewrite (proj2 (Z.eqb_neq (i + 1 - 1) 0)) by lia.
        f_equal. lia. }
      rewrite Hnext, IH.
      * replace (i + 1 - 1 + Z.of_nat n) with (i - 1 + Z.of_nat (S n)) by lia.
        reflexivity.
      * lia.
      * lia.
      * intros j Hj. apply Hdisk. lia.
Qed.

(** The boundary of the walk.  With depth [K] and the document, among the
    [K] years from the start back, under the year [N] back only,
    [findDocumentYear] returns that year iff [N < K]; with [K <= N] it fails
    with "get: document not found".  Depth 1 tests the start year only. *)
Lemma findDocumentYear_boundary (year docID : string) (K N start : Z)
    (ds : DocumentStore) (o : OS) :
  Go.Atoi (year_or_now year o) = (start, None) ->
  0 <= N ->
  (forall j, 0 <= j < K ->
     (data_exists (year_back start (year_or_now year o) j) docID ds o = true <-> j = N)) ->
  findDocumentYear year docID K ds o
    = if N <? K then (year_back start (year_or_now year o) N, None) else not_found_year.
Proof.
  intros Hyear HN Hdisk. unfold findDocumentYear. rewrite Hyear.
  change (year_or_now year o) with (year_back start (year_or_now year o) (1 - 1)) at 1.
  rewrite (find_loop_boundary ds docID start (year_or_now year o) o N (Z.to_nat K) 1).
  - destruct (Z.ltb_spec N K) as [Hk | Hk].
    + rewrite (proj2 (Z.ltb_lt N (1 - 1 + Z.of_nat (Z.to_nat K)))) by lia. reflexivity.
    + rewrite (proj2 (Z.ltb_ge N (1 - 1 + Z.of_nat (Z.to_nat K)))) by lia. reflexivity.
  - lia.
  - lia.
  - intros j Hj. apply Hdisk. lia.
Qed.

(** Depth 1: one test, of the start year as given. *)
Lemma findDocumentYear_depth_one (year docID : string) (start : Z)
    (ds : DocumentStore) (o : OS) :
  Go.Atoi (year_or_now year o) = (start, None) ->
  findDocumentYear year docID 1 ds o
    = if data_exists (year_or_now year o) docID ds o
      then (year_or_now year o, None) else not_found_year.
Proof.
  intros Hyear. unfold findDocumentYear. rewrite Hyear. reflexivity.
Qed.

(** ** What reads and what does not read the id in lowercase *)

(** The six read operations see the id through [strings.ToLower] only. *)
Lemma reads_ignore_case
    (json_Unmarshal : bytes -> DocumentMeta -> DocumentMeta * option error)
    (a b year lang : string) (ds : DocumentStore) (o : OS) :
  Go.ToLower a = Go.ToLower b ->
  Exists year a ds o = Exists year b ds o /\
  ExistsFromYear year a ds o = ExistsFromYear year b ds o /\
  Get json_Unmarshal year a lang ds o = Get json_Unmarshal year b lang ds o /\
  GetFromYear json_Unmarshal year a lang ds o = GetFromYear json_Unmarshal year b lang ds o /\
  GetMeta json_Unmarshal year a lang ds o = GetMeta json_Unmarshal year b lang ds o /\
  GetMetaFromYear json_Unmarshal year a lang ds o
    = GetMetaFromYear json_Unmarshal year b lang ds o.
Proof.
  intros Hcase.
  unfold Exists, ExistsFromYear, Get, GetFromYear, GetMeta, GetMetaFromYear.
  cbv zeta. rewrite Hcase. repeat split; reflexivity.
Qed.

(** ** The cache *)

(** A successful [Store] records the id, as it was given, with its year. *)
Lemma Store_caches {M : Type} `{DocumentMetaer M}
    (year docID : string) (data : bytes) (meta : M) (ds ds' : DocumentStore) (o o' : OS)
    (y : string) :
  Store year docID data meta ds o = (y, None, ds', o') ->
  cache ds' !! docID = Some y /\ y = year_or_now year o.
Proof.
  unfold Store. intros Hstore.
  repeat case_match; simplify_eq.
  cbn [cache set_cache]. rewrite lookup_insert_eq. split; reflexivity.
Qed.

(** [Delete] returns the store as it was: no cache entry is removed. *)
Lemma Delete_keeps_store (year docID : string) (ds : DocumentStore) (o : OS) :
  snd (fst (Delete year docID ds o)) = ds.
Proof. unfold Delete. repeat case_match; reflexivity. Qed.

(** [Exists] answers true for a cached id, whatever the year and the disk. *)
Lemma Exists_cached (year docID : string) (ds : DocumentStore) (o : OS) :
  is_cached ds (Go.ToLower docID) = true -> Exists year docID ds o = true.
Proof. intros Hc. unfold Exists. cbv zeta. rewrite Hc. reflexivity. Qed.

(** So once a lowercase id has been stored through a store, [Exists]
    answers true after any [Delete] on it, for every year and disk. *)
Lemma Exists_after_any_Delete {M : Type} `{DocumentMetaer M}
    (year docID : string) (data : bytes) (meta : M) (ds ds1 : DocumentStore) (o o1 : OS)
    (y year' year'' : string) (o2 o3 : OS) :
  Go.ToLower docID = docID ->
  Store year docID data meta ds o = (y, None, ds1, o1) ->
  Exists year'' docID (snd (fst (Delete year' docID ds1 o2))) o3 = true.
Proof.
  intros Hlow Hstore. rewrite Delete_keeps_store.
  apply Exists_cached. rewrite Hlow. unfold is_cached.
  destruct (Store_caches _ _ _ _ _ _ _ _ _ Hstore) as [-> _]. reflexivity.
Qed.

(** ** What the adapter leaves on disk *)

Lemma Stat_entry (name : string) (o : OS) (n : inode) :
  name <> "" -> files o !! Go.Clean name = Some n -> os.Stat name o = inl n.
Proof.
  intros Hname Hn. unfold os.Stat.
  rewrite (proj2 (String.eqb_neq name "")) by exact Hname.
  cbv zeta. rewrite Hn. reflexivity.
Qed.

Lemma ReadFile_entry (name : string) (o : OS) (data : bytes) :
  name <> "" -> files o !! Go.Clean name = Some (File data) ->
  os.ReadFile name o = (data, None).
Proof.
  intros Hname Hn. unfold os.ReadFile. rewrite (Stat_entry name o (File data)) by assumption.
  reflexivity.
Qed.

Lemma mkdir_chain_keeps (chain : list string) (t : gmap string inode) (k : string) (v : inode) :
  t !! k = Some v -> snd (os.mkdir_chain chain t) !! k = Some v.
Proof.
  revert t. induction chain as [| q rest IH]; intros t Hk; cbn [os.mkdir_chain]; [exact Hk |].
  destruct (t !! q) as [[d |] |] eqn:Hq; [exact Hk | apply IH, Hk |].
  apply IH. rewrite lookup_insert_ne; [exact Hk | congruence].
Qed.

Lemma MkdirAll_keeps (name : string) (o : OS) (k : string) (v : inode) :
  files o !! k = Some v -> files (snd (os.MkdirAll name o)) !! k = Some v.
Proof.
  intros Hk. unfold os.MkdirAll. destruct (String.eqb name ""); [exact Hk |].
  cbv zeta.
  pose proof (mkdir_chain_keeps (os.ancestors (Go.Clean name) ++ [Go.Clean name])
                (files o) k v Hk) as Hkeep.
  destruct (os.mkdir_chain _ (files o)) as [err t]. exact Hkeep.
Qed.

(** A [WriteFile] that succeeds puts the data under the clean name and
    touches nothing else; one that fails touches nothing. *)
Lemma WriteFile_result (name : string) (data : bytes) (o o' : OS) (err : option error) :
  os.WriteFile name data o = (err, o') ->
  match err with
  | None => name <> "" /\ o' = os.set_files o (<[Go.Clean name := File data]> (files o))
  | Some _ => o' = o
  end.
Proof.
  unfold os.WriteFile. intros Hw.
  destruct (String.eqb_spec name "") as [-> | Hname].
  - cbn in Hw. repeat case_match; simplify_eq; reflexivity.
  - repeat case_match; simplify_eq; try reflexivity; split; (assumption || reflexivity).
Qed.

(** [Write] never removes or changes what is under another name, and when
    it fails it changes no file at all. *)
Lemma Write_keeps (f : FileSystem) (path : string) (data : bytes) (o o' : OS)
    (err : option error) (k : string) (v : inode) :
  FileSystem.Write f path data o = (err, o') ->
  k <> target f path \/ err <> None ->
  files o !! k = Some v -> files o' !! k = Some v.
Proof.
  unfold FileSystem.Write. cbv zeta. intros Hw Hside Hk.
  pose proof (MkdirAll_keeps (Go.Dir (FileSystem.filePath f path)) o k v Hk) as Hdir.
  destruct (os.MkdirAll (Go.Dir (FileSystem.filePath f path)) o) as [[e1 |] o1];
    [simplify_eq; exact Hdir |].
  cbn [snd] in Hdir.
  destruct (os.WriteFile (FileSystem.filePath f path) data o1) as [e2 o2] eqn:Hfile.
  apply WriteFile_result in Hfile.
  destruct e2 as [e2 |]; simplify_eq; [exact Hdir |].
  destruct Hfile as [_ ->]. cbn [files os.set_files].
  destruct Hside as [Hne | Herr]; [| congruence].
  rewrite lookup_insert_ne; [exact Hdir | unfold target in Hne; congruence].
Qed.

(** A [Write] that succeeds leaves the data under its target. *)
Lemma Write_done (f : FileSystem) (path : string) (data : bytes) (o o' : OS) :
  FileSystem.Write f path data o = (None, o') ->
  FileSystem.filePath f path <> "" /\ files o' !! target f path = Some (File data).
Proof.
  unfold FileSystem.Write. cbv zeta. intros Hw.
  destruct (os.MkdirAll (Go.Dir (FileSystem.filePath f path)) o) as [[e1 |] o1];
    [discriminate |].
  destruct (os.WriteFile (FileSystem.filePath f path) data o1) as [e2 o2] eqn:Hfile.
  apply WriteFile_result in Hfile.
  destruct e2 as [e2 |]; simplify_eq.
  destruct Hfile as [Hname ->]. split; [exact Hname |].
  cbn [files os.set_files]. apply lookup_insert_eq.
Qed.

(** A file under the target of a path is found by [Exists]. *)
Lemma Exists_entry (f : FileSystem) (path : string) (o : OS) (n : inode) :
  FileSystem.filePath f path <> "" -> files o !! target f path = Some n ->
  FileSystem.Exists f path o = true.
Proof.
  intros Hname Hn. unfold FileSystem.Exists.
  rewrite (Stat_entry _ o n) by assumption. reflexivity.
Qed.

(** ** A store that fails after the payload was written *)

(** When [Store] returns an error although its write of the payload
    succeeded (the metadata did not marshal, or its write failed), the
    store is as before, so the id is not cached, and the payload is on
    disk under the data path, where [Exists] finds it. *)
Lemma Store_partial_failure {M : Type} `{DocumentMetaer M}
    (year docID : string) (data : bytes) (meta : M) (ds ds' : DocumentStore)
    (o o1 o' : OS) (y : string) (e : error) :
  is_cached ds docID = false ->
  data_exists (year_or_now year o) docID ds o = false ->
  FileSystem.Write (fs ds) (DataPath (calculatePaths (year_or_now year o) docID)) data o
    = (None, o1) ->
  Store year docID data meta ds o = (y, Some e, ds', o') ->
  y = "" /\ ds' = ds /\
  os.ReadFile (FileSystem.filePath (fs ds)
                 (DataPath (calculatePaths (year_or_now year o) docID))) o' = (data, None) /\
  data_exists (year_or_now year o) docID ds o' = true.
Proof.
  intros Hc Hnew Hdata Hstore. unfold Store in Hstore. unfold data_exists in *.
  rewrite Hc in Hstore. cbv zeta in Hstore. rewrite Hnew, Hdata in Hstore.
  destruct (Write_done _ _ _ _ _ Hdata) as [Hname Hfile].
  assert (Hend : files o' !! target (fs ds) (DataPath (calculatePaths (year_or_now year o) docID))
                 = Some (File data) /\ y = "" /\ ds' = ds).
  { destruct (Marshal meta) as [metaBytes [merr |]]; [simplify_eq; auto |].
    destruct (FileSystem.Write (fs ds) (MetaPath (calculatePaths (year_or_now year o) docID))
                metaBytes o1) as [[werr |] o2] eqn:Hmeta; simplify_eq.
    repeat split.
    eapply Write_keeps; [exact Hmeta | right; discriminate | exact Hfile]. }
  destruct Hend as (Hfile' & -> & ->). repeat split.
  - apply ReadFile_entry; assumption.
  - eapply Exists_entry; eassumption.
Qed.

(** ** Names of files

    What [filepath.Clean] and [filepath.Join] keep of the end of a path. *)

Lemma string_app_cons (c : ascii) (r s : string) : String c r +:+ s = String c (r +:+ s).
Proof. reflexivity. Qed.

Lemma string_app_assoc (a b c : string) : (a +:+ b) +:+ c = a +:+ (b +:+ c).
Proof. induction a as [| x a IH]; [reflexivity |]. rewrite !string_app_cons, IH. reflexivity. Qed.

Lemma string_app_length (a b : string) :
  String.length (a +:+ b) = (String.length a + String.length b)%nat.
Proof. induction a as [| x a IH]; [reflexivity |]. rewrite string_app_cons. cbn. rewrite IH. reflexivity. Qed.

Lemma ends_with_app (p s suf : string) : ends_with s suf -> ends_with (p +:+ s) suf.
Proof. intros [pre ->]. exists (p +:+ pre). symmetry. apply string_app_assoc. Qed.

Lemma ends_with_length (s suf : string) :
  ends_with s suf -> (String.length suf <= String.length s)%nat.
Proof. intros [pre ->]. rewrite string_app_length. lia. Qed.

(** Two strings that end with different suffixes of one length differ. *)
Lemma ends_with_differ (a b s1 s2 : string) :
  String.length s1 = String.length s2 -> s1 <> s2 ->
  ends_with a s1 -> ends_with b s2 -> a <> b.
Proof.
  intros Hlen Hne [p1 ->] [p2 ->] Heq. apply Hne. clear Hne.
  assert (Hlong : forall x p, String.length (String x p +:+ s2) <> String.length s1).
  { intros x p. rewrite string_app_cons. cbn [String.length]. rewrite string_app_length. lia. }
  revert p2 Heq. induction p1 as [| x p1 IH]; intros [| y p2] Heq.
  - exact Heq.
  - exfalso. apply (Hlong y p2). rewrite <- Heq. reflexivity.
  - exfalso. apply (f_equal String.length) in Heq.
    rewrite string_app_cons in Heq. cbn [String.length] in Heq. rewrite string_app_length in Heq.
    change (String.length ("" +:+ s2)) with (String.length s2) in Heq. lia.
  - rewrite !string_app_cons in Heq. injection Heq as _ Heq. exact (IH _ Heq).
Qed.

Lemma Split_not_nil (s : string) (sep : ascii) : Go.Split s sep <> [].
Proof.
  destruct s as [| c r]; cbn; [discriminate |].
  destruct (Ascii.eqb c sep); [discriminate |].
  destruct (Go.Split r sep); discriminate.
Qed.

(** Appending a suffix without separator extends the last element. *)
Lemma Split_app (pre suf : string) (sep : ascii) :
  Go.Split suf sep = [suf] ->
  Go.Split (pre +:+ suf) sep
    = (removelast (Go.Split pre sep) ++ [List.last (Go.Split pre sep) "" +:+ suf])%list.
Proof.
  intros Hsuf. induction pre as [| c r IH]; [exact Hsuf |].
  rewrite string_app_cons. cbn [Go.Split]. rewrite IH.
  pose proof (Split_not_nil r sep) as Hnil.
  destruct (Ascii.eqb c sep).
  - destruct (Go.Split r sep) as [| w ws]; [contradiction | reflexivity].
  - destruct (Go.Split r sep) as [| w [| x xs]]; [contradiction | reflexivity | reflexivity].
Qed.

Lemma concat_snoc (sep : string) (l : list string) (c : string) :
  ends_with (String.concat sep (l ++ [c])%list) c.
Proof.
  induction l as [| x l IH]; [exists ""; reflexivity |].
  cbn [app]. destruct (l ++ [c])%list as [| y r] eqn:Hl; [destruct l; discriminate |].
  change (String.concat sep (x :: y :: r)) with (x +:+ sep +:+ String.concat sep (y :: r)).
  apply ends_with_app, ends_with_app, IH.
Qed.

Lemma clean_step_ordinary (rooted : bool) (out : list string) (elem : string) :
  String.eqb elem "" = false -> String.eqb elem "." = false ->
  String.eqb elem ".." = false ->
  Go.clean_step rooted out elem = elem :: out.
Proof. intros H0 H1 H2. unfold Go.clean_step. rewrite H0, H1, H2. reflexivity. Qed.

(** [Clean] keeps a suffix that has no separator and at least three bytes
    (so that the last element is none of [""], ["."], [".."]). *)
Lemma Clean_ends_with (s suf : string) :
  Go.Split suf "/" = [suf] -> (3 <= String.length suf)%nat ->
  ends_with s suf -> ends_with (Go.Clean s) suf.
Proof.
  intros Hsuf Hlen [pre ->]. unfold Go.Clean.
  assert (Hnot : forall w x, (String.length x < 3)%nat -> String.eqb (w +:+ suf) x = false).
  { intros w x Hx. apply String.eqb_neq. intros Heq.
    apply (f_equal String.length) in Heq. rewrite string_app_length in Heq. lia. }
  rewrite (Hnot pre "") by (cbn; lia). cbv zeta.
  rewrite (Split_app pre suf "/" Hsuf), fold_left_app. cbn [fold_left].
  rewrite clean_step_ordinary by (apply Hnot; cbn; lia). cbn [rev].
  set (out := rev (fold_left _ _ _)).
  set (lastc := List.last _ _ +:+ suf).
  assert (Hbody : ends_with (Go.Join (out ++ [lastc])%list "/") suf).
  { destruct (concat_snoc "/" out lastc) as [p Hp]. unfold Go.Join. rewrite Hp.
    apply ends_with_app. exists (List.last (Go.Split pre "/") ""). reflexivity. }
  destruct (Go.HasPrefix _ "/").
  - apply ends_with_app, Hbody.
  - destruct (String.eqb_spec (Go.Join (out ++ [lastc])%list "/") "") as [Hempty | _];
      [| exact Hbody].
    apply ends_with_length in Hbody. rewrite Hempty in Hbody. cbn in Hbody. lia.
Qed.

(** [filepath.Join] of two elements keeps such a suffix of the second. *)
Lemma Join2_ends_with (d x suf : string) :
  Go.Split suf "/" = [suf] -> (3 <= String.length suf)%nat ->
  ends_with x suf -> ends_with (Go.filepath_Join [d; x]) suf.
Proof.
  intros Hsuf Hlen Hx. unfold Go.filepath_Join.
  assert (Hxne : String.eqb x "" = false).
  { apply String.eqb_neq. intros ->. apply ends_with_length in Hx. cbn in Hx. lia. }
  cbn [Go.drop_empty]. destruct (String.eqb d "").
  - rewrite Hxne. apply Clean_ends_with; assumption.
  - apply Clean_ends_with; [assumption .. |].
    change (Go.Join [d; x] "/") with (d +:+ "/" +:+ x).
    apply ends_with_app, ends_with_app, Hx.
Qed.

Lemma DataPath_ends (year docID : string) :
  ends_with (DataPath (calculatePaths year docID)) ".data".
Proof.
  unfold calculatePaths. destruct (6 <=? Go.len docID); cbv zeta beta iota;
    cbn [DataPath]; (apply Join2_ends_with; [reflexivity | cbn; lia |]);
    eexists; reflexivity.
Qed.

Lemma MetaPath_ends (year docID : string) :
  ends_with (MetaPath (calculatePaths year docID)) ".meta".
Proof.
  unfold calculatePaths. destruct (6 <=? Go.len docID); cbv zeta beta iota;
    cbn [MetaPath]; (apply Join2_ends_with; [reflexivity | cbn; lia |]);
    eexists; reflexivity.
Qed.

Lemma target_ends_with (f : FileSystem) (path suf : string) :
  Go.Split suf "/" = [suf] -> (3 <= String.length suf)%nat ->
  ends_with path suf -> ends_with (target f path) suf.
Proof.
  intros Hsuf Hlen Hp. unfold target, FileSystem.filePath.
  apply Clean_ends_with, Join2_ends_with; assumption.
Qed.

(** The data file and the metadata file of a document have different
    names, whatever the root, the year and the id. *)
Lemma data_and_meta_differ (f : FileSystem) (year docID : string) :
  target f (DataPath (calculatePaths year docID))
    <> target f (MetaPath (calculatePaths year docID)).
Proof.
  apply (ends_with_differ _ _ ".data" ".meta"); [reflexivity | discriminate | |];
    (apply target_ends_with; [reflexivity | cbn; lia |]).
  - apply DataPath_ends.
  - apply MetaPath_ends.
Qed.

(** ** The root [.]

    Cleaning a cleaned relative path behind [./] changes nothing, so the
    root [.] absorbs the second join of every path. *)

Lemma slash_free_cons (x : ascii) (c : string) :
  slash_free (String x c) -> Ascii.eqb x "/" = false /\ slash_free c.
Proof.
  unfold slash_free. cbn [Go.Split]. destruct (Ascii.eqb x "/") eqn:Hx.
  - intros Hs. pose proof (Split_not_nil c "/"). destruct (Go.Split c "/"); congruence.
  - intros Hs. split; [reflexivity |].
    pose proof (Split_not_nil c "/"). destruct (Go.Split c "/") as [| w [| y ws]]; congruence.
Qed.

Lemma Split_slash_free (s : string) : Forall slash_free (Go.Split s "/").
Proof.
  induction s as [| x s IH]; cbn [Go.Split].
  - constructor; [reflexivity | constructor].
  - destruct (Ascii.eqb x "/") eqn:Hx.
    + constructor; [reflexivity | exact IH].
    + pose proof (Split_not_nil s "/") as Hnil.
      destruct (Go.Split s "/") as [| w ws]; [contradiction |].
      inversion IH as [| ? ? Hw Hws]; subst. constructor; [| exact Hws].
      unfold slash_free in *. cbn [Go.Split]. rewrite Hx, Hw. reflexivity.
Qed.

(** Splitting what was joined gives the elements back. *)
Lemma Split_sep (a b : string) :
  slash_free a -> Go.Split (a +:+ "/" +:+ b) "/" = a :: Go.Split b "/".
Proof.
  induction a as [| x a IH]; intros Ha; [reflexivity |].
  apply slash_free_cons in Ha as [Hx Ha].
  rewrite string_app_cons. cbn [Go.Split]. rewrite Hx, (IH Ha). reflexivity.
Qed.

Lemma Split_Join (c : string) (l : list string) :
  Forall slash_free (c :: l) -> Go.Split (Go.Join (c :: l) "/") "/" = c :: l.
Proof.
  revert c. induction l as [| d l IH]; intros c Hall; inversion Hall as [| ? ? Hc Hl]; subst.
  - exact Hc.
  - change (Go.Join (c :: d :: l) "/") with (c +:+ "/" +:+ Go.Join (d :: l) "/").
    rewrite (Split_sep _ _ Hc), (IH d Hl). reflexivity.
Qed.

Lemma relative_stack_step (out : list string) (elem : string) :
  slash_free elem -> relative_stack out -> relative_stack (Go.clean_step false out elem).
Proof.
  intros Hfree (nn & dd & -> & Hnn & Hdd). unfold Go.clean_step.
  destruct (String.eqb elem "") eqn:H0; [exists nn, dd; auto |].
  destruct (String.eqb elem ".") eqn:H1; [exists nn, dd; auto |]. cbn [orb].
  destruct (String.eqb elem "..") eqn:H2.
  - apply String.eqb_eq in H2. subst elem.
    destruct nn as [| n nn]; cbn [app].
    + destruct dd as [| d dd].
      * exists [], [".."]. repeat split; repeat constructor.
      * inversion Hdd; subst. cbn. exists [], (".." :: ".." :: dd).
        repeat split; repeat constructor; assumption.
    + inversion Hnn as [| ? ? Hn Hnn']; subst.
      destruct Hn as (_ & _ & _ & Hn). rewrite Hn.
      exists nn, dd. auto.
  - exists (elem :: nn), dd. repeat split; [constructor; [repeat split |] | ]; assumption.
Qed.

Lemma relative_stack_fold (l out : list string) :
  Forall slash_free l -> relative_stack out ->
  relative_stack (fold_left (Go.clean_step false) l out).
Proof.
  revert out. induction l as [| c l IH]; intros out Hl Hout; [exact Hout |].
  inversion Hl; subst. cbn [fold_left]. apply IH; [assumption |].
  apply relative_stack_step; assumption.
Qed.

(** Cleaning the elements of a cleaned relative path again collects the
    same elements. *)
Lemma fold_dotdots (dd acc : list string) :
  Forall (fun c => c = "..") dd -> Forall (fun c => c = "..") acc ->
  fold_left (Go.clean_step false) dd acc = (rev dd ++ acc)%list.
Proof.
  revert acc. induction dd as [| d dd IH]; intros acc Hdd Hacc; [reflexivity |].
  inversion Hdd; subst. cbn [fold_left rev].
  assert (Hstep : Go.clean_step false acc ".." = ".." :: acc).
  { destruct acc as [| a acc]; [reflexivity |]. inversion Hacc; subst. reflexivity. }
  rewrite Hstep, IH, <- app_assoc; [reflexivity | assumption | constructor; auto].
Qed.

Lemma fold_ordinary (nn acc : list string) :
  Forall ordinary nn ->
  fold_left (Go.clean_step false) nn acc = (rev nn ++ acc)%list.
Proof.
  revert acc. induction nn as [| n nn IH]; intros acc Hnn; [reflexivity |].
  inversion Hnn as [| ? ? Hn Hnn']; subst. cbn [fold_left rev].
  destruct Hn as (_ & H0 & H1 & H2).
  rewrite (clean_step_ordinary false acc n H0 H1 H2), IH, <- app_assoc by assumption.
  reflexivity.
Qed.

Lemma relative_stack_again (out : list string) :
  relative_stack out -> fold_left (Go.clean_step false) (rev out) [] = out.
Proof.
  intros (nn & dd & -> & Hnn & Hdd).
  rewrite rev_app_distr, fold_left_app.
  rewrite (fold_dotdots (rev dd) []); [| apply Forall_rev, Hdd | constructor].
  rewrite fold_ordinary by apply Forall_rev, Hnn.
  rewrite !rev_involutive, app_nil_r. reflexivity.
Qed.

Lemma relative_stack_free (out : list string) :
  relative_stack out -> Forall slash_free out.
Proof.
  intros (nn & dd & -> & Hnn & Hdd). apply Forall_app. split.
  - eapply Forall_impl; [exact Hnn |]. intros c Hc. apply Hc.
  - eapply Forall_impl; [exact Hdd |]. intros c ->. reflexivity.
Qed.

Lemma relative_stack_nonempty (out : list string) :
  relative_stack out -> Forall (fun c => String.eqb c "" = false) out.
Proof.
  intros (nn & dd & -> & Hnn & Hdd). apply Forall_app. split.
  - eapply Forall_impl; [exact Hnn |]. intros c Hc. apply Hc.
  - eapply Forall_impl; [exact Hdd |]. intros c ->. reflexivity.
Qed.

Lemma Join_empty (c : string) (l : list string) :
  String.eqb c "" = false -> String.eqb (Go.Join (c :: l) "/") "" = false.
Proof.
  intros Hc. destruct l as [| d l]; [exact Hc |].
  change (Go.Join (c :: d :: l) "/") with (c +:+ "/" +:+ Go.Join (d :: l) "/").
  destruct c; [discriminate | reflexivity].
Qed.

(** What [Clean] makes of [./p], cleaned again behind [./], is itself. *)
Lemma Clean_dot_again (p : string) :
  Go.Clean ("./" +:+ Go.Clean ("./" +:+ p)) = Go.Clean ("./" +:+ p).
Proof.
  assert (Hshape : forall q, Go.Clean ("./" +:+ q)
            = let body := Go.Join (rev (fold_left (Go.clean_step false) (Go.Split q "/") [])) "/" in
              if String.eqb body "" then "." else body).
  { intros q. reflexivity. }
  rewrite (Hshape p). cbv zeta.
  pose proof (relative_stack_fold (Go.Split p "/") [] (Split_slash_free p)) as Hstack.
  assert (Hnil : relative_stack []) by (exists [], []; repeat split; constructor).
  specialize (Hstack Hnil).
  set (out := fold_left (Go.clean_step false) (Go.Split p "/") []) in *.
  destruct (rev out) as [| c l] eqn:Hrev.
  - reflexivity.
  - assert (Hfree : Forall slash_free (c :: l)).
    { rewrite <- Hrev. apply Forall_rev, relative_stack_free, Hstack. }
    assert (Hc : String.eqb c "" = false).
    { pose proof (relative_stack_nonempty out Hstack) as Hne.
      apply Forall_rev in Hne. rewrite Hrev in Hne. inversion Hne; assumption. }
    rewrite (Join_empty c l Hc), Hshape. cbv zeta.
    rewrite (Split_Join c l Hfree), <- Hrev, (relative_stack_again out Hstack), Hrev.
    rewrite (Join_empty c l Hc). reflexivity.
Qed.

(** The root [.] absorbs the second join of every path. *)
Lemma dot_absorbs (path : string) : absorbed (mkFileSystem ".") path.
Proof.
  unfold absorbed, FileSystem.filePath, Go.filepath_Join. cbn [rootDir Go.drop_empty].
  cbn [String.eqb Ascii.eqb Bool.eqb]. 
  change (Go.Join ["."; path] "/") with ("./" +:+ path).
  change (Go.Join ["."; Go.Clean ("./" +:+ path)] "/") with ("./" +:+ Go.Clean ("./" +:+ path)).
  apply Clean_dot_again.
Qed.

Lemma Clean_not_empty (s : string) : Go.Clean s <> "".
Proof.
  unfold Go.Clean. destruct (String.eqb s ""); [discriminate |]. cbv zeta.
  destruct (Go.HasPrefix s "/"); [discriminate |].
  destruct (String.eqb_spec (Go.Join (rev (fold_left (Go.clean_step false)
                                             (Go.Split s "/") [])) "/") "");
    [discriminate | assumption].
Qed.

Lemma dot_filePath_not_empty (path : string) :
  FileSystem.filePath (mkFileSystem ".") path <> "".
Proof. apply Clean_not_empty. Qed.

(** ** Reading below a root that absorbs the second join *)

(** Below such a root [Read] returns the file that is on disk. *)
Lemma Read_entry (f : FileSystem) (path : string) (o : OS) (data : bytes) :
  absorbed f path ->
  FileSystem.filePath f path <> "" ->
  files o !! target f path = Some (File data) ->
  FileSystem.Read f path o = (data, None).
Proof.
  intros Habs Hname Hfile. unfold FileSystem.Read. cbv zeta.
  assert (Hex : FileSystem.Exists f (FileSystem.filePath f path) o = true).
  { unfold FileSystem.Exists. rewrite Habs.
    rewrite (Stat_entry _ o (File data)) by assumption. reflexivity. }
  rewrite Hex. cbn [negb].
  rewrite (ReadFile_entry _ o data) by assumption. reflexivity.
Qed.

(** The round trip below a root that absorbs the second join: after a
    successful [Store] of a lowercase id, [Get] in the year of the store
    returns the stored bytes, for every language, whether or not the
    metadata can be read. *)
Lemma Get_after_Store_absorbed {M : Type} `{DocumentMetaer M}
    (json_Unmarshal : bytes -> DocumentMeta -> DocumentMeta * option error)
    (year docID : string) (data : bytes) (meta : M) (ds ds' : DocumentStore) (o o' : OS)
    (y lang : string) :
  Go.ToLower docID = docID ->
  absorbed (fs ds) (DataPath (calculatePaths (year_or_now year o) docID)) ->
  Store year docID data meta ds o = (y, None, ds', o') ->
  fst (fst (Get json_Unmarshal y docID lang ds' o')) = data.
Proof.
  intros Hlow Habs Hstore.
  pose proof (data_and_meta_differ (fs ds) (year_or_now year o) docID) as Hnames.
  assert (Hy : y = year_or_now year o) by (eapply Store_caches; exact Hstore).
  subst y. unfold Store in Hstore.
  destruct (is_cached ds docID); [discriminate |]. cbv zeta in Hstore.
  destruct (FileSystem.Exists _ _ o); [discriminate |].
  destruct (FileSystem.Write (fs ds) (DataPath _) data o) as [[e1 |] o1] eqn:Hdata;
    [discriminate |].
  destruct (Marshal meta) as [metaBytes [e2 |]]; [discriminate |].
  destruct (FileSystem.Write (fs ds) (MetaPath _) metaBytes o1) as [[e3 |] o2] eqn:Hmeta;
    [discriminate |].
  injection Hstore as <- <-.
  destruct (Write_done _ _ _ _ _ Hdata) as [Hname Hfile].
  assert (Hfile' : files o2 !! target (fs ds)
                     (DataPath (calculatePaths (year_or_now year o) docID))
                   = Some (File data)).
  { eapply Write_keeps; [exact Hmeta | left; exact Hnames | exact Hfile]. }
  unfold Get, getDocumentData. cbv zeta. rewrite Hlow. cbn [fs set_cache].
  rewrite (Read_entry _ _ o2 data) by assumption.
  destruct (getMetaWithYear _ _ _ _ _ _) as [m [e |]]; reflexivity.
Qed.

(** ** The overlay rule *)

Lemma suffixed_not_empty (a b : string) : String.eqb (a +:+ "." +:+ b) "" = false.
Proof. destruct a; reflexivity. Qed.

(** [getMetaWithYear] reads and decodes the file the overlay rule names. *)
Lemma getMetaWithYear_overlay
    (json_Unmarshal : bytes -> DocumentMeta -> DocumentMeta * option error)
    (year docID lang : string) (ds : DocumentStore) (o : OS) :
  getMetaWithYear json_Unmarshal year docID lang ds o
    = decode_meta json_Unmarshal
        (FileSystem.Read (fs ds)
           (overlay_path (MetaPath (calculatePaths year docID)) lang (fs ds) o) o).
Proof.
  unfold getMetaWithYear, overlay_path, decode_meta. cbv zeta.
  destruct (negb (String.eqb lang "")); cbn [andb].
  - destruct (FileSystem.Exists _ _ o).
    + rewrite suffixed_not_empty. reflexivity.
    + reflexivity.
  - reflexivity.
Qed.

(** Below a root that absorbs the second join, with the default metadata
    file on disk: a request with no language, or for a language whose file
    is not there, is answered from the whole default file, and a request for
    a language whose file is there from that file. *)
Lemma getMetaWithYear_absorbed
    (json_Unmarshal : bytes -> DocumentMeta -> DocumentMeta * option error)
    (year docID lang : string) (ds : DocumentStore) (o : OS) (dflt : bytes) :
  let metaPath := MetaPath (calculatePaths year docID) in
  absorbed (fs ds) metaPath ->
  FileSystem.filePath (fs ds) metaPath <> "" ->
  files o !! target (fs ds) metaPath = Some (File dflt) ->
  (lang = "" \/ FileSystem.Exists (fs ds) (metaPath +:+ "." +:+ lang) o = false ->
     getMetaWithYear json_Unmarshal year docID lang ds o
       = decode_meta json_Unmarshal (dflt, None)) /\
  (forall variant : bytes,
     lang <> "" ->
     absorbed (fs ds) (metaPath +:+ "." +:+ lang) ->
     FileSystem.filePath (fs ds) (metaPath +:+ "." +:+ lang) <> "" ->
     files o !! target (fs ds) (metaPath +:+ "." +:+ lang) = Some (File variant) ->
     getMetaWithYear json_Unmarshal year docID lang ds o
       = decode_meta json_Unmarshal (variant, None)).
Proof.
  intros metaPath Habs Hname Hfile. split.
  - intros Hdefault. rewrite getMetaWithYear_overlay. fold metaPath.
    assert (Hpath : overlay_path metaPath lang (fs ds) o = metaPath).
    { unfold overlay_path. destruct Hdefault as [-> | ->]; [reflexivity |].
      rewrite andb_false_r. reflexivity. }
    rewrite Hpath, (Read_entry _ _ o dflt) by assumption. reflexivity.
  - intros variant Hlang Habs' Hname' Hfile'. rewrite getMetaWithYear_overlay. fold metaPath.
    assert (Hpath : overlay_path metaPath lang (fs ds) o = metaPath +:+ "." +:+ lang).
    { unfold overlay_path.
      rewrite (proj2 (String.eqb_neq lang "")) by exact Hlang.
      rewrite (Exists_entry _ _ o (File variant)) by assumption. reflexivity. }
    rewrite Hpath, (Read_entry _ _ o variant) by assumption. reflexivity.
Qed.

(** ** The store below the root [.] *)

(** The round trip below the root [.]: for every payload, year and
    lowercase id, if [Store] succeeds then [Get] in the year [Store]
    returned gives the stored bytes back, for every language. *)
Lemma Get_after_Store_dot_root {M : Type} `{DocumentMetaer M}
    (json_Unmarshal : bytes -> DocumentMeta -> DocumentMeta * option error)
    (year docID : string) (data : bytes) (meta : M) (ds ds' : DocumentStore) (o o' : OS)
    (y lang : string) :
  fs ds = mkFileSystem "." ->
  Go.ToLower docID = docID ->
  Store year docID data meta ds o = (y, None, ds', o') ->
  fst (fst (Get json_Unmarshal y docID lang ds' o')) = data.
Proof.
  intros Hroot Hlow Hstore.
  eapply Get_after_Store_absorbed; [exact Hlow | | exact Hstore].
  rewrite Hroot. apply dot_absorbs.
Qed.

(** The overlay below the root [.], with the default metadata file on
    disk: no language, or a language without file, gets the default file
    in full; a language with a file gets that file. *)
Lemma getMetaWithYear_dot_root
    (json_Unmarshal : bytes -> DocumentMeta -> DocumentMeta * option error)
    (year docID lang : string) (ds : DocumentStore) (o : OS) (dflt : bytes) :
  let metaPath := MetaPath (calculatePaths year docID) in
  fs ds = mkFileSystem "." ->
  files o !! target (fs ds) metaPath = Some (File dflt) ->
  (lang = "" \/ FileSystem.Exists (fs ds) (metaPath +:+ "." +:+ lang) o = false ->
     getMetaWithYear json_Unmarshal year docID lang ds o
       = decode_meta json_Unmarshal (dflt, None)) /\
  (forall variant : bytes,
     lang <> "" ->
     files o !! target (fs ds) (metaPath +:+ "." +:+ lang) = Some (File variant) ->
     getMetaWithYear json_Unmarshal year docID lang ds o
       = decode_meta json_Unmarshal (variant, None)).
Proof.
  intros metaPath Hroot Hfile.
  destruct (getMetaWithYear_absorbed json_Unmarshal year docID lang ds o dflt) as [Hd Hv].
  - rewrite Hroot. apply dot_absorbs.
  - rewrite Hroot. apply dot_filePath_not_empty.
  - exact Hfile.
  - split; [exact Hd |].
    intros variant Hlang Hvar. apply Hv; [exact Hlang | | | exact Hvar].
    + rewrite Hroot. apply dot_absorbs.
    + rewrite Hroot. apply dot_filePath_not_empty.
Qed.

(** ** The lemmas at work below the root [.] *)

Lemma names_differ (a b : string) : String.eqb a b = false -> a <> b.
Proof. intros Hne. apply String.eqb_neq, Hne. Qed.

(** The round trip: ["hello"] comes back. *)
Example Get_after_Store_dot :
  fst (fst (Get lenient_json "2024" hello_id "fr" (fst (stored ".")) (snd (stored "."))))
    = hello.
Proof.
  apply (Get_after_Store_absorbed lenient_json "2024" hello_id hello plain_meta
           (fresh ".") (fst (stored ".")) (opened ".") (snd (stored ".")) "2024" "fr").
  - evaluate.
  - unfold absorbed. evaluate.
  - evaluate.
Qed.

(** The walk from 2026 with the document under 2024 (two years back):
    depth 3 reaches it, depth 2 does not. *)
Example findDocumentYear_depth_3_and_2 :
  findDocumentYear "2026" hello_id 3 (fresh ".") (snd (stored ".")) = ("2024", None) /\
  findDocumentYear "2026" hello_id 2 (fresh ".") (snd (stored ".")) = not_found_year.
Proof.
  assert (Hdisk : forall j, 0 <= j < 3 ->
            (data_exists (year_back 2026 "2026" j) hello_id (fresh ".") (snd (stored "."))
               = true <-> j = 2)).
  { intros j Hj.
    assert (Hcases : j = 0 \/ j = 1 \/ j = 2) by lia.
    destruct Hcases as [-> | [-> | ->]];
      (split;
       [ intros Hyp; vm_compute in Hyp; first [reflexivity | discriminate Hyp]
       | intros Hyp; first [discriminate Hyp | evaluate] ]). }
  split.
  - rewrite (findDocumentYear_boundary "2026" hello_id 3 2 2026 (fresh ".") (snd (stored ".")));
      [evaluate | evaluate | lia | exact Hdisk].
  - rewrite (findDocumentYear_boundary "2026" hello_id 2 2 2026 (fresh ".") (snd (stored ".")));
      [evaluate | evaluate | lia |].
    intros j Hj. apply Hdisk. lia.
Qed.

(** A store that fails at the metadata: the payload is on disk. *)
Example Store_partial_failure_dot :
  os.ReadFile (FileSystem.filePath (fs (fresh ".")) (DataPath hello_paths))
    (snd (half_stored ".")) = (hello, None) /\
  data_exists "2024" hello_id (fresh ".") (snd (half_stored ".")) = true.
Proof.
  refine (proj2 (proj2
    (Store_partial_failure "2024" hello_id hello broken_meta (fresh ".") (fresh ".")
       (opened ".") (snd (half_stored ".")) (snd (half_stored ".")) ""
       (Errorf "failed to marshal metadata" (ErrorString "json: unsupported value"))
       _ _ _ _))); evaluate.
Qed.

(** The overlay: with the default file and a French one on disk, French is
    answered from the French file and German from the default one. *)
Example getMetaWithYear_dot :
  getMetaWithYear lenient_json "2024" hello_id "fr" (fst (stored_fr ".")) (snd (stored_fr "."))
    = decode_meta lenient_json (fst (marshalled plain_meta), None) /\
  getMetaWithYear lenient_json "2024" hello_id "de" (fst (stored_fr ".")) (snd (stored_fr "."))
    = decode_meta lenient_json (fst (marshalled plain_meta), None).
Proof.
  split.
  - refine (proj2 (getMetaWithYear_absorbed lenient_json "2024" hello_id "fr"
                     (fst (stored_fr ".")) (snd (stored_fr ".")) (fst (marshalled plain_meta))
                     _ _ _) (fst (marshalled plain_meta)) _ _ _ _);
      first [ evaluate | unfold absorbed; evaluate | apply names_differ; evaluate ].
  - refine (proj1 (getMetaWithYear_absorbed lenient_json "2024" hello_id "de"
                     (fst (stored_fr ".")) (snd (stored_fr ".")) (fst (marshalled plain_meta))
                     _ _ _) _);
      first [ evaluate | unfold absorbed; evaluate | apply names_differ; evaluate
            | right; evaluate ].
Qed.

(** * Further properties of the store *)

(** ** File names *)

(** X1. The data file and the default metadata file that [calculatePaths]
    names for a document are different files below the root, for every
    root, year and id (also for malformed ids, which go to the sentinel
    directories): writing the metadata never overwrites the payload. *)
Theorem data_file_is_never_the_meta_file (f : FileSystem) (year docID : string) :
  Go.Clean (FileSystem.filePath f (DataPath (calculatePaths year docID)))
    <> Go.Clean (FileSystem.filePath f (MetaPath (calculatePaths year docID))).
Proof. exact (data_and_meta_differ f year docID). Qed.

(** ** The backward walk *)



(** ** Letter case in the read operations *)

(** X3. [Exists], [ExistsFromYear], [Get], [GetFromYear], [GetMeta] and
    [GetMetaFromYear] give the same result for two ids that differ in
    letter case only. *)
Theorem read_operations_ignore_case
    (json_Unmarshal : bytes -> DocumentMeta -> DocumentMeta * option error)
    (a b year lang : string) (ds : DocumentStore) (o : OS) :
  Go.ToLower a = Go.ToLower b ->
  Exists year a ds o = Exists year b ds o /\
  ExistsFromYear year a ds o = ExistsFromYear year b ds o /\
  Get json_Unmarshal year a lang ds o = Get json_Unmarshal year b lang ds o /\
  GetFromYear json_Unmarshal year a lang ds o = GetFromYear json_Unmarshal year b lang ds o /\
  GetMeta json_Unmarshal year a lang ds o = GetMeta json_Unmarshal year b lang ds o /\
  GetMetaFromYear json_Unmarshal year a lang ds o
    = GetMetaFromYear json_Unmarshal year b lang ds o.
Proof. exact (reads_ignore_case json_Unmarshal a b year lang ds o). Qed.

Lemma read_operations_ignore_case_witness :
  Go.ToLower HELLO_ID = Go.ToLower hello_id /\
  Get lenient_json "2024" HELLO_ID "" (fst (stored ".")) (snd (stored "."))
    = Get lenient_json "2024" hello_id "" (fst (stored ".")) (snd (stored ".")).
Proof.
  assert (Hcase : Go.ToLower HELLO_ID = Go.ToLower hello_id) by (vm_compute; reflexivity).
  split; [exact Hcase |].
  exact (proj1 (proj2 (proj2
    (read_operations_ignore_case lenient_json HELLO_ID hello_id "2024" ""
       (fst (stored ".")) (snd (stored ".")) Hcase)))).
Defined.

(** ** A store that fails after the payload was written *)

(** X4. When [Store] returns an error although its write of the payload
    succeeded (the metadata did not marshal, or its write failed), nothing
    is rolled back: the store is as before, so the id is not cached, and
    the payload is on disk under the data path, where [FileSystem.Exists]
    finds it. *)
Theorem failed_Store_keeps_payload {M : Type} `{DocumentMetaer M}
    (year docID : string) (data : bytes) (meta : M) (ds ds' : DocumentStore)
    (o o1 o' : OS) (y : string) (e : error) :
  is_cached ds docID = false ->
  data_exists (year_or_now year o) docID ds o = false ->
  FileSystem.Write (fs ds) (DataPath (calculatePaths (year_or_now year o) docID)) data o
    = (None, o1) ->
  Store year docID data meta ds o = (y, Some e, ds', o') ->
  y = "" /\ ds' = ds /\
  os.ReadFile (FileSystem.filePath (fs ds)
                 (DataPath (calculatePaths (year_or_now year o) docID))) o' = (data, None) /\
  data_exists (year_or_now year o) docID ds o' = true.
Proof. exact (Store_partial_failure year docID data meta ds ds' o o1 o' y e). Qed.

Lemma failed_Store_keeps_payload_witness :
  is_cached (fresh defaultDataDir) hello_id = false /\
  data_exists (year_or_now "2024" (opened defaultDataDir)) hello_id
    (fresh defaultDataDir) (opened defaultDataDir) = false /\
  os.ReadFile (FileSystem.filePath (fs (fresh defaultDataDir))
                 (DataPath (calculatePaths (year_or_now "2024" (opened defaultDataDir))
                              hello_id)))
    (snd (half_stored defaultDataDir)) = (hello, None).
Proof.
  assert (Hc : is_cached (fresh defaultDataDir) hello_id = false)
    by (vm_compute; reflexivity).
  assert (Hnew : data_exists (year_or_now "2024" (opened defaultDataDir)) hello_id
                   (fresh defaultDataDir) (opened defaultDataDir) = false)
    by (vm_compute; reflexivity).
  split; [exact Hc |]. split; [exact Hnew |].
  refine (proj1 (proj2 (proj2
    (failed_Store_keeps_payload "2024" hello_id hello broken_meta
       (fresh defaultDataDir) (fresh defaultDataDir)
       (opened defaultDataDir) (snd (half_stored defaultDataDir))
       (snd (half_stored defaultDataDir)) ""
       (Errorf "failed to marshal metadata" (ErrorString "json: unsupported value"))
       Hc Hnew _ _)))); evaluate.
Defined.

(** ** The store below the root [.] *)

(** X5. Below the root [.] the round trip holds: for every payload, year
    and lowercase id, if [Store] succeeds then [Get], in the year [Store]
    returned, gives back the stored bytes, for every language and whether
    or not the metadata can be decoded. *)
Theorem round_trip_below_dot {M : Type} `{DocumentMetaer M}
    (json_Unmarshal : bytes -> DocumentMeta -> DocumentMeta * option error)
    (year docID : string) (data : bytes) (meta : M) (ds ds' : DocumentStore) (o o' : OS)
    (y lang : string) :
  fs ds = mkFileSystem "." ->
  Go.ToLower docID = docID ->
  Store year docID data meta ds o = (y, None, ds', o') ->
  fst (fst (Get json_Unmarshal y docID lang ds' o')) = data.
Proof.
  exact (Get_after_Store_dot_root json_Unmarshal year docID data meta ds ds' o o' y lang).
Qed.

Lemma round_trip_below_dot_witness :
  fs (fresh ".") = mkFileSystem "." /\
  Go.ToLower hello_id = hello_id /\
  Store "" hello_id hello plain_meta (fresh ".") (opened ".")
    = ("2025", None, fst (run [CallStore "" hello_id hello plain_meta] (fresh ".", opened ".")),
       snd (run [CallStore "" hello_id hello plain_meta] (fresh ".", opened "."))) /\
  fst (fst (Get lenient_json "2025" hello_id "de"
              (fst (run [CallStore "" hello_id hello plain_meta] (fresh ".", opened ".")))
              (snd (run [CallStore "" hello_id hello plain_meta] (fresh ".", opened ".")))))
    = hello.
Proof.
  assert (Hlow : Go.ToLower hello_id = hello_id) by (vm_compute; reflexivity).
  assert (Hstore : Store "" hello_id hello plain_meta (fresh ".") (opened ".")
            = ("2025", None,
               fst (run [CallStore "" hello_id hello plain_meta] (fresh ".", opened ".")),
               snd (run [CallStore "" hello_id hello plain_meta] (fresh ".", opened "."))))
    by evaluate.
  split; [reflexivity |]. split; [exact Hlow |]. split; [exact Hstore |].
  exact (round_trip_below_dot lenient_json "" hello_id hello plain_meta (fresh ".") _
           (opened ".") _ "2025" "de" eq_refl Hlow Hstore).
Defined.

(** X6. Below the root [.], with the default metadata file of a document
    on disk, [getMetaWithYear] follows the overlay rule: a request with no
    language, or for a language whose file does not exist, is answered from
    the whole default file; a request for a language whose file is on disk
    is answered from that file. *)
Theorem overlay_below_dot
    (json_Unmarshal : bytes -> DocumentMeta -> DocumentMeta * option error)
    (year docID lang : string) (ds : DocumentStore) (o : OS) (dflt : bytes) :
  fs ds = mkFileSystem "." ->
  files o !! target (fs ds) (MetaPath (calculatePaths year docID)) = Some (File dflt) ->
  (lang = "" \/
   FileSystem.Exists (fs ds) (MetaPath (calculatePaths year docID) +:+ "." +:+ lang) o = false ->
     getMetaWithYear json_Unmarshal year docID lang ds o
       = decode_meta json_Unmarshal (dflt, None)) /\
  (forall variant : bytes,
     lang <> "" ->
     files o !! target (fs ds) (MetaPath (calculatePaths year docID) +:+ "." +:+ lang)
       = Some (File variant) ->
     getMetaWithYear json_Unmarshal year docID lang ds o
       = decode_meta json_Unmarshal (variant, None)).
Proof. exact (getMetaWithYear_dot_root json_Unmarshal year docID lang ds o dflt). Qed.

Lemma overlay_below_dot_witness :
  fs (fst (stored_fr ".")) = mkFileSystem "." /\
  files (snd (stored_fr ".")) !! target (fs (fst (stored_fr "."))) (MetaPath hello_paths)
    = Some (File (fst (marshalled plain_meta))) /\
  getMetaWithYear lenient_json "2024" hello_id "" (fst (stored_fr ".")) (snd (stored_fr "."))
    = decode_meta lenient_json (fst (marshalled plain_meta), None).
Proof.
  assert (Hfile : files (snd (stored_fr ".")) !!
                    target (fs (fst (stored_fr "."))) (MetaPath hello_paths)
                  = Some (File (fst (marshalled plain_meta)))) by (vm_compute; reflexivity).
  split; [reflexivity |]. split; [exact Hfile |].
  exact (proj1 (overlay_below_dot lenient_json "2024" hello_id "" (fst (stored_fr "."))
                  (snd (stored_fr ".")) (fst (marshalled plain_meta)) eq_refl Hfile)
           (or_introl eq_refl)).
Defined.

(** ** The cache *)

Lemma exec_keeps_cached (s : DocumentStore * OS) (c : call) (docID y : string) :
  cache (fst s) !! docID = Some y -> cache (fst (exec s c)) !! docID = Some y.
Proof.
  destruct s as [ds o]. cbn [fst]. intros Hc.
  destruct c as [years | years | yr d b m | yr d m l | yr d | yr d l]; cbn [exec].
  - unfold SetLookbackYears. case_match; exact Hc.
  - unfold SetExistbackYears. case_match; exact Hc.
  - unfold Store. destruct (is_cached ds d) eqn:Hd; [exact Hc |].
    repeat case_match; simplify_eq; cbn [fst cache set_cache]; try exact Hc.
    rewrite lookup_insert_ne; [exact Hc |].
    intros ->. unfold is_cached in Hd. rewrite Hc in Hd. discriminate.
  - unfold StoreMeta. repeat case_match; simplify_eq; exact Hc.
  - unfold Delete. repeat case_match; simplify_eq; exact Hc.
  - unfold DeleteMeta. repeat case_match; simplify_eq; exact Hc.
Qed.

Lemma run_keeps_cached (calls : list call) (s : DocumentStore * OS) (docID y : string) :
  cache (fst s) !! docID = Some y -> cache (fst (run calls s)) !! docID = Some y.
Proof.
  revert s. induction calls as [| c calls IH]; intros s Hc; [exact Hc |].
  cbn [run fold_left]. apply (IH (exec s c)), exec_keeps_cached, Hc.
Qed.

(** X7. The cache only grows, and [Store] succeeds at most once per id on
    a store: after a successful [Store] of an id, whatever setter, [Store],
    [StoreMeta], [Delete] and [DeleteMeta] calls follow, the id stays cached
    with the year of that [Store], and every further [Store] of the id, in
    any year and with any payload, fails with
    "store: document already exists" and changes nothing. *)
Theorem Store_succeeds_once {M : Type} `{DocumentMetaer M}
    (year docID : string) (data : bytes) (meta : M) (ds ds1 : DocumentStore) (o o1 : OS)
    (y : string) (calls : list call) (year' : string) (data' : bytes) (meta' : M) :
  Store year docID data meta ds o = (y, None, ds1, o1) ->
  cache (fst (run calls (ds1, o1))) !! docID = Some y /\
  Store year' docID data' meta' (fst (run calls (ds1, o1))) (snd (run calls (ds1, o1)))
    = ("", Some (NewDocError OPStore "document already exists"),
       fst (run calls (ds1, o1)), snd (run calls (ds1, o1))).
Proof.
  intros Hstore. apply Store_caches in Hstore as [Hc _].
  pose proof (run_keeps_cached calls (ds1, o1) docID y Hc) as Hlater.
  split; [exact Hlater |].
  unfold Store, is_cached. rewrite Hlater. reflexivity.
Qed.

Lemma Store_succeeds_once_witness :
  Store "2024" hello_id hello plain_meta (fresh ".") (opened ".")
    = ("2024", None, fst (stored "."), snd (stored ".")) /\
  Store "2023" hello_id [] plain_meta
    (fst (run [CallDelete "2024" hello_id] (fst (stored "."), snd (stored "."))))
    (snd (run [CallDelete "2024" hello_id] (fst (stored "."), snd (stored "."))))
    = ("", Some (NewDocError OPStore "document already exists"),
       fst (run [CallDelete "2024" hello_id] (fst (stored "."), snd (stored "."))),
       snd (run [CallDelete "2024" hello_id] (fst (stored "."), snd (stored ".")))).
Proof.
  assert (Hstore : Store "2024" hello_id hello plain_meta (fresh ".") (opened ".")
                   = ("2024", None, fst (stored "."), snd (stored "."))) by evaluate.
  split; [exact Hstore |].
  exact (proj2 (Store_succeeds_once "2024" hello_id hello plain_meta (fresh ".")
                  (fst (stored ".")) (opened ".") (snd (stored ".")) "2024"
                  [CallDelete "2024" hello_id] "2023" [] plain_meta Hstore)).
Defined.

(** ** The sharding engine of the [fs] driver *)

(** X8. [getResDirer(n)] for a positive position [n]: below the length of
    the identifier it returns the byte at index [n] counted from 0, with
    bit 0x20 set; at the length it panics with an index out of range; above
    the length it returns the empty segment. *)
Theorem getResDirer_by_position (n : Z) (id : string) :
  0 < n ->
  (n < Go.len id ->
     exists c, String.get (Z.to_nat n) id = Some c /\
               fsdriver.getResDirer n id
                 = fsdriver.Returns (fsdriver.string_of_byte (Z.lor (Go.byte_of c) 32))) /\
  (n = Go.len id -> fsdriver.getResDirer n id = fsdriver.Panics "index out of range") /\
  (Go.len id < n -> fsdriver.getResDirer n id = fsdriver.Returns "").
Proof. exact (getResDirer_cases n id). Qed.

Lemma getResDirer_by_position_witness :
  0 < 5 /\ fsdriver.getResDirer 5 "abc" = fsdriver.Returns "".
Proof.
  split; [lia |].
  apply (proj2 (proj2 (getResDirer_by_position 5 "abc" ltac:(lia)))).
  vm_compute. reflexivity.
Defined.

Lemma parse_tokens_positive (tokens : list string) (r : list (option Z)) :
  fsdriver.parse_tokens tokens = (r, None) ->
  Forall (fun h => exists n, h = Some n /\ 0 < n) r /\ length r = length tokens.
Proof.
  revert r. induction tokens as [| s rest IH]; intros r Hp; cbn [fsdriver.parse_tokens] in Hp.
  - injection Hp as <-. split; [constructor | reflexivity].
  - destruct (Go.Atoi s) as [n [pe |]]; [discriminate |].
    destruct (Z.leb_spec n 0) as [Hn | Hn]; [discriminate |].
    destruct (fsdriver.parse_tokens rest) as [r' [err |]]; [discriminate |].
    injection Hp as <-. destruct (IH r' eq_refl) as [Hall Hlen].
    split; [constructor; [eauto | exact Hall] | cbn; f_equal; exact Hlen].
Qed.

Lemma segments_return (handlers : list (option Z)) (hash : string) :
  Forall (fun h => exists n, h = Some n /\ 0 < n < Go.len hash) handlers ->
  exists segs, fsdriver.segments handlers hash = fsdriver.Returns segs /\
               length segs = length handlers.
Proof.
  induction handlers as [| h rest IH]; intros Hall.
  - exists []. split; reflexivity.
  - inversion Hall as [| ? ? (n & -> & Hn) Hrest]; subst.
    destruct (IH Hrest) as (segs & Hsegs & Hlen).
    destruct (proj1 (getResDirer_cases n hash ltac:(lia)) ltac:(lia)) as (c & _ & Hseg).
    eexists. cbn [fsdriver.segments]. rewrite Hseg, Hsegs.
    split; [reflexivity | cbn; f_equal; exact Hlen].
Qed.

(** X9. After [resSubs.Parse] has accepted a template, every handler is
    bound to a positive position and there is one per token; [Dir] then
    returns a path, without a panic, for every identifier that is longer
    than each of these positions. *)
Theorem Dir_after_Parse_returns (cfg : string) (rs0 rs : fsdriver.resSubs) (hash : string) :
  fsdriver.Parse cfg rs0 = (None, rs) ->
  (forall n, In (Some n) (fsdriver.res rs) -> n < Go.len hash) ->
  Forall (fun h => exists n, h = Some n /\ 0 < n) (fsdriver.res rs) /\
  length (fsdriver.res rs) = length (Go.Split cfg "/") /\
  exists path, fsdriver.Dir rs hash = fsdriver.Returns path.
Proof.
  unfold fsdriver.Parse. intros Hparse Hshort.
  destruct (fsdriver.parse_tokens (Go.Split cfg "/")) as [r [err |]] eqn:Htok;
    [discriminate |].
  injection Hparse as <-. cbn [fsdriver.res] in *.
  destruct (parse_tokens_positive _ _ Htok) as [Hpos Hlen].
  split; [exact Hpos |]. split; [exact Hlen |].
  assert (Hall : Forall (fun h => exists n, h = Some n /\ 0 < n < Go.len hash) r).
  { apply Forall_forall. intros h Hin.
    destruct (proj1 (Forall_forall _ _) Hpos h Hin) as (n & -> & Hn).
    exists n. split; [reflexivity |]. split; [exact Hn |].
    apply Hshort. apply list_elem_of_In. exact Hin. }
  destruct (segments_return r hash Hall) as (segs & Hsegs & _).
  exists (Go.filepath_Join segs). unfold fsdriver.Dir. cbn [fsdriver.res].
  rewrite Hsegs. reflexivity.
Qed.

Lemma Dir_after_Parse_returns_witness :
  fsdriver.Parse fsdriver.ResPath (fsdriver.mkResSubs [] [])
    = (None, fsdriver.mkResSubs [Some 1; Some 2; Some 3] ["1"; "2"; "3"]) /\
  (forall n, In (Some n) [Some 1; Some 2; Some 3] -> n < Go.len hello_id) /\
  exists path,
    fsdriver.Dir (fsdriver.mkResSubs [Some 1; Some 2; Some 3] ["1"; "2"; "3"]) hello_id
      = fsdriver.Returns path.
Proof.
  assert (Hparse : fsdriver.Parse fsdriver.ResPath (fsdriver.mkResSubs [] [])
            = (None, fsdriver.mkResSubs [Some 1; Some 2; Some 3] ["1"; "2"; "3"]))
    by (vm_compute; reflexivity).
  assert (Hshort : forall n, In (Some n) [Some 1; Some 2; Some 3] -> n < Go.len hello_id).
  { intros n [Hn | [Hn | [Hn | []]]]; injection Hn as <-; vm_compute; reflexivity. }
  split; [exact Hparse |]. split; [exact Hshort |].
  exact (proj2 (proj2 (Dir_after_Parse_returns fsdriver.ResPath (fsdriver.mkResSubs [] [])
                         (fsdriver.mkResSubs [Some 1; Some 2; Some 3] ["1"; "2"; "3"])
                         hello_id Hparse Hshort))).
Defined.

(** ** Language tags *)

Lemma normal_char_again (c : ascii) :
  let f := fun c : ascii =>
    let c1 := if Ascii.eqb c "-" then "_"%char else c in
    if Go.is_upper c1 then Go.ascii_of (Go.byte_of c1 + 32) else c1 in
  f (f c) = f c.
Proof. destruct c as [[] [] [] [] [] [] [] []]; vm_compute; reflexivity. Qed.

(** The test for the empty tag in [normalizeLang] changes nothing. *)
Lemma normalizeLang_unfold (lang : string) :
  normalizeLang lang = Go.ToLower (Go.ReplaceAll lang "-" "_").
Proof. destruct lang; reflexivity. Qed.

Lemma lower_replace_again (s : string) :
  Go.ToLower (Go.ReplaceAll (Go.ToLower (Go.ReplaceAll s "-" "_")) "-" "_")
    = Go.ToLower (Go.ReplaceAll s "-" "_").
Proof.
  induction s as [| c s IH]; [reflexivity |].
  cbn [Go.ReplaceAll Go.ToLower]. rewrite IH. f_equal. apply (normal_char_again c).
Qed.

Lemma normalizeLang_again (lang : string) :
  normalizeLang (normalizeLang lang) = normalizeLang lang.
Proof. rewrite !normalizeLang_unfold. apply lower_replace_again. Qed.

(** X10. [StoreMeta], [DeleteMeta] and [GetMetaFromYear] address the
    metadata variant by the normal form of the language tag (lowercase,
    [-] replaced by [_]), and normalising twice changes nothing: a tag and
    its normal form, such as ["en-US"] and ["en_us"], name the same
    variant in all three. *)
Theorem language_tag_is_normalised {M : Type} `{DocumentMetaer M}
    (json_Unmarshal : bytes -> DocumentMeta -> DocumentMeta * option error)
    (year docID lang : string) (meta : M) (ds : DocumentStore) (o : OS) :
  normalizeLang (normalizeLang lang) = normalizeLang lang /\
  StoreMeta year docID meta (normalizeLang lang) ds o = StoreMeta year docID meta lang ds o /\
  DeleteMeta year docID (normalizeLang lang) ds o = DeleteMeta year docID lang ds o /\
  GetMetaFromYear json_Unmarshal year docID (normalizeLang lang) ds o
    = GetMetaFromYear json_Unmarshal year docID lang ds o.
Proof.
  pose proof (normalizeLang_again lang) as Hagain.
  split; [exact Hagain |].
  unfold StoreMeta, DeleteMeta, GetMetaFromYear. cbv zeta. rewrite Hagain.
  repeat split; reflexivity.
Qed.

(** ** The adapter: what a write leaves behind *)

(** X11. A [Write] that succeeds leaves the data under its path: [Exists]
    then finds the path, the file below the root holds exactly the written
    bytes, and every file or directory that was on disk under another name
    is still there unchanged (directories may have been added). *)
Theorem Write_then_Exists (f : FileSystem) (path : string) (data : bytes) (o o' : OS) :
  FileSystem.Write f path data o = (None, o') ->
  FileSystem.Exists f path o' = true /\
  os.ReadFile (FileSystem.filePath f path) o' = (data, None) /\
  (forall k v, k <> Go.Clean (FileSystem.filePath f path) ->
     files o !! k = Some v -> files o' !! k = Some v).
Proof.
  intros Hw. destruct (Write_done f path data o o' Hw) as [Hname Hfile].
  split; [exact (Exists_entry f path o' (File data) Hname Hfile) |].
  split; [exact (ReadFile_entry _ o' data Hname Hfile) |].
  intros k v Hk Hold. exact (Write_keeps f path data o o' None k v Hw (or_introl Hk) Hold).
Qed.

Lemma Write_then_Exists_witness :
  FileSystem.Write (mkFileSystem defaultDataDir) "2024/a/b.data" hello (opened defaultDataDir)
    = (None, snd (FileSystem.Write (mkFileSystem defaultDataDir) "2024/a/b.data" hello
                    (opened defaultDataDir))) /\
  FileSystem.Exists (mkFileSystem defaultDataDir) "2024/a/b.data"
    (snd (FileSystem.Write (mkFileSystem defaultDataDir) "2024/a/b.data" hello
            (opened defaultDataDir))) = true.
Proof.
  assert (Hw : FileSystem.Write (mkFileSystem defaultDataDir) "2024/a/b.data" hello
                 (opened defaultDataDir)
               = (None, snd (FileSystem.Write (mkFileSystem defaultDataDir) "2024/a/b.data"
                               hello (opened defaultDataDir)))) by evaluate.
  split; [exact Hw |].
  exact (proj1 (Write_then_Exists (mkFileSystem defaultDataDir) "2024/a/b.data" hello
                  (opened defaultDataDir) _ Hw)).
Defined.

(** X12. Below the root [.] the adapter reads back what it wrote: after a
    [Write] that succeeds, [Read] of the same path returns exactly the
    written bytes and no error. *)
Theorem Write_then_Read_below_dot (path : string) (data : bytes) (o o' : OS) :
  FileSystem.Write (mkFileSystem ".") path data o = (None, o') ->
  FileSystem.Read (mkFileSystem ".") path o' = (data, None).
Proof.
  intros Hw. destruct (Write_done _ path data o o' Hw) as [Hname Hfile].
  apply Read_entry; [apply dot_absorbs | exact Hname | exact Hfile].
Qed.

Lemma Write_then_Read_below_dot_witness :
  FileSystem.Write (mkFileSystem ".") "2024/a/b.data" hello (opened ".")
    = (None, snd (FileSystem.Write (mkFileSystem ".") "2024/a/b.data" hello (opened "."))) /\
  FileSystem.Read (mkFileSystem ".") "2024/a/b.data"
    (snd (FileSystem.Write (mkFileSystem ".") "2024/a/b.data" hello (opened ".")))
    = (hello, None).
Proof.
  assert (Hw : FileSystem.Write (mkFileSystem ".") "2024/a/b.data" hello (opened ".")
               = (None, snd (FileSystem.Write (mkFileSystem ".") "2024/a/b.data" hello
                               (opened ".")))) by evaluate.
  split; [exact Hw |].
  exact (Write_then_Read_below_dot "2024/a/b.data" hello (opened ".") _ Hw).
Defined.

(** ** Removing *)

(** [os.Remove] either removes the one entry under the clean name or
    changes nothing. *)
Lemma os_Remove_result (name : string) (o o' : OS) (err : option error) :
  os.Remove name o = (err, o') ->
  match err with
  | None => o' = os.set_files o (delete (Go.Clean name) (files o))
  | Some _ => o' = o
  end.
Proof.
  unfold os.Remove. cbv zeta. intros Hr.
  repeat case_match; simplify_eq; reflexivity.
Qed.

Lemma Remove_result (f : FileSystem) (path : string) (o o' : OS) (err : option error) :
  FileSystem.Remove f path o = (err, o') ->
  match err with
  | None => o' = os.set_files o (delete (target f path) (files o))
  | Some _ => o' = o
  end.
Proof.
  unfold FileSystem.Remove. cbv zeta. intros Hr.
  destruct (negb _); [simplify_eq; reflexivity |].
  destruct (os.Remove (FileSystem.filePath f path) o) as [e o1] eqn:Hos.
  apply os_Remove_result in Hos.
  destruct e; inversion Hr; subst; first [reflexivity | exact Hos].
Qed.

(** What is on disk after a [Remove] was there before. *)
Lemma Remove_adds_nothing (f : FileSystem) (path : string) (o o' : OS) (err : option error)
    (k : string) (v : inode) :
  FileSystem.Remove f path o = (err, o') ->
  files o' !! k = Some v -> files o !! k = Some v.
Proof.
  intros Hr. apply Remove_result in Hr. destruct err; subst o'; [tauto |].
  cbn [files os.set_files]. intros Hk. apply lookup_delete_Some in Hk. tauto.
Qed.

Lemma remove_metas_adds_nothing (ds : DocumentStore) (dirPath : string) (l : list string)
    (o o' : OS) (err : option error) (k : string) (v : inode) :
  remove_metas ds dirPath l o = (err, o') ->
  files o' !! k = Some v -> files o !! k = Some v.
Proof.
  revert o. induction l as [| file rest IH]; intros o Hr Hk; cbn [remove_metas] in Hr.
  - simplify_eq. exact Hk.
  - destruct (0 <? Go.Index file ".meta"); [| exact (IH o Hr Hk)].
    destruct (FileSystem.Remove (fs ds) (Go.filepath_Join [dirPath; file]) o)
      as [e o1] eqn:Hrm.
    destruct e; simplify_eq.
    + exact (Remove_adds_nothing _ _ _ _ _ k v Hrm Hk).
    + exact (Remove_adds_nothing _ _ _ _ _ k v Hrm (IH o1 Hr Hk)).
Qed.

Lemma deleteMetaAll_adds_nothing (dirPath : string) (ds : DocumentStore) (o o' : OS)
    (err : option error) (k : string) (v : inode) :
  deleteMetaAll dirPath ds o = (err, o') ->
  files o' !! k = Some v -> files o !! k = Some v.
Proof.
  unfold deleteMetaAll. intros Hd Hk.
  destruct (FileSystem.List (fs ds) dirPath o) as [l [e |]]; [simplify_eq; exact Hk |].
  exact (remove_metas_adds_nothing ds dirPath l o o' err k v Hd Hk).
Qed.

(** X13. [Delete] changes neither the store nor the cache, and it never
    adds or changes an entry of the disk: what is there afterwards was
    there before.  When it returns no error, neither the data file nor the
    directory of the document is left on the disk. *)
Theorem Delete_removes (year docID : string) (ds ds' : DocumentStore) (o o' : OS)
    (err : option error) :
  Delete year docID ds o = (err, ds', o') ->
  ds' = ds /\
  (forall k v, files o' !! k = Some v -> files o !! k = Some v) /\
  (err = None ->
     files o' !! target (fs ds) (DataPath (calculatePaths year docID)) = None /\
     files o' !! target (fs ds) (DirPath (calculatePaths year docID)) = None).
Proof.
  unfold Delete. cbv zeta. intros Hd.
  destruct (FileSystem.Remove (fs ds) (DataPath (calculatePaths year docID)) o)
    as [e1 o1] eqn:H1.
  destruct e1 as [e1 |].
  { simplify_eq. split; [reflexivity |]. split; [| discriminate].
    intros k v. exact (Remove_adds_nothing _ _ _ _ _ k v H1). }
  destruct (deleteMetaAll (DirPath (calculatePaths year docID)) ds o1) as [e2 o2] eqn:H2.
  destruct (FileSystem.Remove (fs ds) (DirPath (calculatePaths year docID)) o2)
    as [e3 o3] eqn:H3.
  assert (Hsub : forall k v, files o3 !! k = Some v -> files o !! k = Some v).
  { intros k v Hk. apply (Remove_adds_nothing _ _ _ _ _ k v H1).
    apply (deleteMetaAll_adds_nothing _ _ _ _ _ k v H2).
    exact (Remove_adds_nothing _ _ _ _ _ k v H3 Hk). }
  assert (Hdata : files o3 !! target (fs ds) (DataPath (calculatePaths year docID)) = None).
  { destruct (files o3 !! target (fs ds) (DataPath (calculatePaths year docID)))
      as [v |] eqn:Hv; [| reflexivity].
    apply (Remove_adds_nothing _ _ _ _ _ _ v H3) in Hv.
    apply (deleteMetaAll_adds_nothing _ _ _ _ _ _ v H2) in Hv.
    apply Remove_result in H1. subst o1. cbn [files os.set_files] in Hv.
    rewrite lookup_delete_eq in Hv. discriminate. }
  destruct e3 as [e3 |]; simplify_eq; (split; [reflexivity |]); (split; [exact Hsub |]);
    [discriminate |].
  intros _. split; [exact Hdata |].
  apply Remove_result in H3. subst. cbn [files os.set_files]. apply lookup_delete_eq.
Qed.

Lemma Delete_removes_witness :
  files (snd (deleted ".")) !! target (fs (fst (stored_fr "."))) (DataPath hello_paths) = None /\
  files (snd (deleted ".")) !! target (fs (fst (stored_fr "."))) (DirPath hello_paths) = None.
Proof.
  assert (Hd : Delete "2024" hello_id (fst (stored_fr ".")) (snd (stored_fr "."))
               = (None, fst (stored_fr "."), snd (deleted "."))) by evaluate.
  exact (proj2 (proj2 (Delete_removes "2024" hello_id _ _ _ _ None Hd)) eq_refl).
Defined.

(** ** The file of the payload and the files of the metadata variants *)

Lemma concat_snoc_prefix (sep : string) (l : list string) :
  exists p, forall c, String.concat sep (l ++ [c])%list = p +:+ c.
Proof.
  induction l as [| x l [p IH]]; [exists ""; reflexivity |].
  exists (x +:+ sep +:+ p). intros c. cbn [app]. specialize (IH c).
  destruct (l ++ [c])%list as [| y r] eqn:Hl; [destruct l; discriminate |].
  change (String.concat sep (x :: y :: r)) with (x +:+ sep +:+ String.concat sep (y :: r)).
  rewrite IH, !string_app_assoc. reflexivity.
Qed.

Lemma HasPrefix_app (pre suf : string) :
  Go.HasPrefix suf "/" = false ->
  Go.HasPrefix (pre +:+ suf) "/" = Go.HasPrefix pre "/".
Proof.
  intros Hsuf. destruct pre as [| c r]; [exact Hsuf |].
  rewrite string_app_cons. cbn [Go.HasPrefix]. destruct (r +:+ suf), r; reflexivity.
Qed.

Lemma slash_free_no_prefix (suf : string) :
  slash_free suf -> Go.HasPrefix suf "/" = false.
Proof.
  destruct suf as [| x c]; [reflexivity |]. intros Hs.
  apply slash_free_cons in Hs as [Hx _]. cbn [Go.HasPrefix].
  rewrite Ascii.eqb_sym, Hx. reflexivity.
Qed.

Lemma slash_free_String (x : ascii) (c : string) :
  Ascii.eqb x "/" = false -> slash_free c -> slash_free (String x c).
Proof. unfold slash_free. intros Hx Hc. cbn [Go.Split]. rewrite Hx, Hc. reflexivity. Qed.

Lemma string_app_inv_head (g a b : string) : g +:+ a = g +:+ b -> a = b.
Proof.
  induction g as [| x g IH]; [trivial |].
  rewrite !string_app_cons. intros Heq. injection Heq as Heq. exact (IH Heq).
Qed.

(** What [Clean] makes of a path does not depend on the end of its last
    element: a suffix without separator, of three bytes or more, is carried
    over as it is. *)
Lemma Clean_keeps_suffix (pre : string) :
  exists G, forall suf, slash_free suf -> (3 <= String.length suf)%nat ->
    Go.Clean (pre +:+ suf) = G +:+ suf.
Proof.
  destruct (concat_snoc_prefix "/"
              (rev (fold_left (Go.clean_step (Go.HasPrefix pre "/"))
                      (removelast (Go.Split pre "/")) []))) as [p Hp].
  exists ((if Go.HasPrefix pre "/" then "/" else "") +:+ p +:+ List.last (Go.Split pre "/") "").
  intros suf Hsuf Hlen. unfold Go.Clean.
  assert (Hnot : forall w x, (String.length x < 3)%nat -> String.eqb (w +:+ suf) x = false).
  { intros w x Hx. apply String.eqb_neq. intros Heq.
    apply (f_equal String.length) in Heq. rewrite string_app_length in Heq. lia. }
  rewrite (Hnot pre "") by (cbn; lia). cbv zeta.
  rewrite (HasPrefix_app pre suf (slash_free_no_prefix suf Hsuf)).
  rewrite (Split_app pre suf "/" Hsuf), fold_left_app. cbn [fold_left].
  rewrite clean_step_ordinary by (apply Hnot; cbn; lia). cbn [rev].
  unfold Go.Join. rewrite Hp.
  destruct (Go.HasPrefix pre "/").
  - rewrite !string_app_assoc. reflexivity.
  - rewrite <- string_app_assoc, (Hnot _ "") by (cbn; lia).
    rewrite !string_app_assoc. reflexivity.
Qed.

Lemma Join2_keeps_suffix (d x : string) :
  exists G, forall suf, slash_free suf -> (3 <= String.length suf)%nat ->
    Go.filepath_Join [d; x +:+ suf] = G +:+ suf.
Proof.
  unfold Go.filepath_Join. cbn [Go.drop_empty]. destruct (String.eqb d "").
  - destruct (Clean_keeps_suffix x) as [G HG]. exists G. intros suf Hsuf Hlen.
    assert (Hne : String.eqb (x +:+ suf) "" = false).
    { apply String.eqb_neq. intros Heq. apply (f_equal String.length) in Heq.
      rewrite string_app_length in Heq. cbn in Heq. lia. }
    rewrite Hne. exact (HG suf Hsuf Hlen).
  - destruct (Clean_keeps_suffix (d +:+ "/" +:+ x)) as [G HG]. exists G.
    intros suf Hsuf Hlen. rewrite <- (HG suf Hsuf Hlen).
    change (Go.Join [d; x +:+ suf] "/") with (d +:+ "/" +:+ x +:+ suf).
    rewrite !string_app_assoc. reflexivity.
Qed.

Lemma target_keeps_suffix (f : FileSystem) (x : string) :
  exists G, forall suf, slash_free suf -> (3 <= String.length suf)%nat ->
    target f (x +:+ suf) = G +:+ suf.
Proof.
  destruct (Join2_keeps_suffix (rootDir f) x) as [G1 H1].
  destruct (Clean_keeps_suffix G1) as [G2 H2]. exists G2. intros suf Hsuf Hlen.
  unfold target, FileSystem.filePath. rewrite (H1 suf Hsuf Hlen). exact (H2 suf Hsuf Hlen).
Qed.

(** The two files of a document differ in their ending only. *)
Lemma document_names (year docID : string) :
  exists G, DataPath (calculatePaths year docID) = G +:+ ".data" /\
            MetaPath (calculatePaths year docID) = G +:+ ".meta".
Proof.
  unfold calculatePaths. destruct (6 <=? Go.len docID); cbv zeta beta iota;
    cbn [DataPath MetaPath];
    match goal with
    | |- context [Go.filepath_Join [?d; ?x +:+ ".data"]] =>
        destruct (Join2_keeps_suffix d x) as [G HG]
    end;
    exists G; split; apply HG; first [reflexivity | cbn; lia].
Qed.

(** The file of the payload is not the file of a metadata variant whose
    language tag has no separator. *)
Lemma payload_is_no_variant (f : FileSystem) (year docID lang : string) :
  slash_free lang ->
  target f (DataPath (calculatePaths year docID))
    <> target f (MetaPath (calculatePaths year docID) +:+ "." +:+ lang).
Proof.
  intros Hlang. destruct (document_names year docID) as [G [-> ->]].
  destruct (target_keeps_suffix f G) as [G' HG].
  rewrite (string_app_assoc G ".meta" ("." +:+ lang)).
  rewrite (HG ".data") by first [reflexivity | cbn; lia].
  rewrite (HG (".meta" +:+ "." +:+ lang)).
  - intros Heq. apply string_app_inv_head in Heq. discriminate Heq.
  - change (".meta" +:+ "." +:+ lang) with
      (String "." (String "m" (String "e" (String "t" (String "a" (String "." lang)))))).
    repeat (apply slash_free_String; [reflexivity |]). exact Hlang.
  - change (".meta" +:+ "." +:+ lang) with
      (String "." (String "m" (String "e" (String "t" (String "a" (String "." lang)))))).
    cbn [String.length]. lia.
Qed.

Lemma normal_char_no_slash (x : ascii) :
  Ascii.eqb x "/" = false ->
  Ascii.eqb (let c1 := if Ascii.eqb x "-" then "_"%char else x in
             if Go.is_upper c1 then Go.ascii_of (Go.byte_of c1 + 32) else c1) "/" = false.
Proof. destruct x as [[] [] [] [] [] [] [] []]; vm_compute; trivial. Qed.

Lemma normalizeLang_slash_free (lang : string) :
  slash_free lang -> slash_free (normalizeLang lang).
Proof.
  rewrite normalizeLang_unfold.
  induction lang as [| x c IH]; [trivial |]. intros Hs.
  apply slash_free_cons in Hs as [Hx Hc]. cbn [Go.ReplaceAll Go.ToLower].
  apply slash_free_String; [exact (normal_char_no_slash x Hx) | exact (IH Hc)].
Qed.

(** The file a metadata call for [lang] addresses is never the payload. *)
Lemma payload_is_no_metadata (f : FileSystem) (year docID lang : string) :
  slash_free lang ->
  target f (DataPath (calculatePaths year docID))
    <> target f (if negb (String.eqb (normalizeLang lang) "")
                 then MetaPath (calculatePaths year docID) +:+ "." +:+ normalizeLang lang
                 else MetaPath (calculatePaths year docID)).
Proof.
  intros Hlang. destruct (negb _).
  - apply payload_is_no_variant, normalizeLang_slash_free, Hlang.
  - apply data_and_meta_differ.
Qed.

(** X14. [StoreMeta] for a language tag without [/] never touches the
    payload: whatever it returns, the store is unchanged and the data file
    of the document holds what it held before. *)
Theorem StoreMeta_keeps_payload {M : Type} `{DocumentMetaer M}
    (year docID lang : string) (meta : M) (ds ds' : DocumentStore) (o o' : OS)
    (y : string) (err : option error) (v : inode) :
  slash_free lang ->
  StoreMeta year docID meta lang ds o = (y, err, ds', o') ->
  files o !! target (fs ds) (DataPath (calculatePaths (year_or_now year o) docID)) = Some v ->
  ds' = ds /\
  files o' !! target (fs ds) (DataPath (calculatePaths (year_or_now year o) docID)) = Some v.
Proof.
  intros Hlang Hs Hv. unfold StoreMeta in Hs. cbv zeta in Hs.
  destruct (negb (FileSystem.Exists _ _ o)); [simplify_eq; auto |].
  destruct (Marshal meta) as [metaBytes [e |]]; [simplify_eq; auto |].
  match type of Hs with
  | context [FileSystem.Write ?f ?p ?d ?o0] =>
      destruct (FileSystem.Write f p d o0) as [e1 o1] eqn:Hw
  end.
  assert (Hkept : files o1 !! target (fs ds)
                    (DataPath (calculatePaths (year_or_now year o) docID)) = Some v).
  { refine (Write_keeps _ _ _ _ _ _ _ _ Hw _ Hv). left.
    exact (payload_is_no_metadata (fs ds) (year_or_now year o) docID lang Hlang). }
  destruct e1; simplify_eq; auto.
Qed.

Lemma StoreMeta_keeps_payload_witness :
  files (snd (stored_fr ".")) !! target (mkFileSystem ".") (DataPath hello_paths)
    = Some (File hello).
Proof.
  refine (proj2 (StoreMeta_keeps_payload "2024" hello_id "fr" plain_meta
                   (fst (stored ".")) (fst (stored_fr ".")) (snd (stored "."))
                   (snd (stored_fr ".")) "2024" None (File hello) _ _ _)).
  - reflexivity.
  - evaluate.
  - evaluate.
Defined.

(** X15. [DeleteMeta] for a language tag without [/] never removes the
    payload.  Whatever it returns, the store is unchanged, nothing is
    added to the disk and the data file of the document holds what it held
    before; when it returns an error the disk is as it was. *)
Theorem DeleteMeta_keeps_payload
    (year docID lang : string) (ds ds' : DocumentStore) (o o' : OS)
    (err : option error) (v : inode) :
  slash_free lang ->
  DeleteMeta year docID lang ds o = (err, ds', o') ->
  files o !! target (fs ds) (DataPath (calculatePaths year docID)) = Some v ->
  ds' = ds /\
  files o' !! target (fs ds) (DataPath (calculatePaths year docID)) = Some v /\
  (forall k w, files o' !! k = Some w -> files o !! k = Some w) /\
  (err <> None -> o' = o).
Proof.
  intros Hlang Hd Hv. unfold DeleteMeta in Hd. cbv zeta in Hd.
  pose proof (payload_is_no_metadata (fs ds) year docID lang Hlang) as Hne.
  match type of Hd with
  | context [FileSystem.Remove ?f ?p ?o0] =>
      destruct (FileSystem.Remove f p o0) as [e1 o1] eqn:Hr
  end.
  pose proof (fun k w => Remove_adds_nothing _ _ _ _ _ k w Hr) as Hsub.
  apply Remove_result in Hr.
  destruct e1; simplify_eq; (split; [reflexivity |]).
  - auto.
  - split; [| split; [exact Hsub | congruence]].
    cbn [files os.set_files]. rewrite lookup_delete_ne by congruence. exact Hv.
Qed.

Lemma DeleteMeta_keeps_payload_witness :
  files (snd (DeleteMeta "2024" hello_id "fr" (fst (stored_fr ".")) (snd (stored_fr "."))))
    !! target (mkFileSystem ".") (DataPath hello_paths) = Some (File hello).
Proof.
  refine (proj1 (proj2 (DeleteMeta_keeps_payload "2024" hello_id "fr"
                   (fst (stored_fr ".")) (fst (stored_fr ".")) (snd (stored_fr "."))
                   _ None (File hello) _ _ _))).
  - reflexivity.
  - evaluate.
  - evaluate.
Defined.

(** ** What a successful [Store] leaves on disk *)

(** X16. Whatever the root, a [Store] that returns no error has written
    both files: the data file holds the payload, the metadata file holds
    what [Marshal] returned, the id is cached under the year that is
    returned, and every entry of the disk other than the metadata file is
    kept as it was. *)
Theorem Store_writes_both_files {M : Type} `{DocumentMetaer M}
    (year docID : string) (data : bytes) (meta : M) (ds ds' : DocumentStore) (o o' : OS)
    (y : string) :
  Store year docID data meta ds o = (y, None, ds', o') ->
  y = year_or_now year o /\
  cache ds' !! docID = Some y /\
  files o' !! target (fs ds) (DataPath (calculatePaths y docID)) = Some (File data) /\
  files o' !! target (fs ds) (MetaPath (calculatePaths y docID))
    = Some (File (fst (Marshal meta))) /\
  (forall k v, k <> target (fs ds) (MetaPath (calculatePaths y docID)) ->
     files o !! k = Some v -> files o' !! k = Some v).
Proof.
  intros Hstore. destruct (Store_caches _ _ _ _ _ _ _ _ _ Hstore) as [Hcache ->].
  split; [reflexivity |]. split; [exact Hcache |].
  unfold Store in Hstore. destruct (is_cached ds docID); [discriminate |].
  cbv zeta in Hstore.
  destruct (FileSystem.Exists (fs ds)
              (DataPath (calculatePaths (year_or_now year o) docID)) o) eqn:Hnew;
    [discriminate |].
  destruct (FileSystem.Write (fs ds) (DataPath (calculatePaths (year_or_now year o) docID))
              data o) as [[e1 |] o1] eqn:Hdata; [discriminate |].
  destruct (Marshal meta) as [metaBytes [e2 |]]; [discriminate |].
  destruct (FileSystem.Write (fs ds) (MetaPath (calculatePaths (year_or_now year o) docID))
              metaBytes o1) as [[e3 |] o2] eqn:Hmeta; [discriminate |].
  injection Hstore as _ <-.
  destruct (Write_done _ _ _ _ _ Hdata) as [_ Hfile].
  destruct (Write_done _ _ _ _ _ Hmeta) as [_ Hmfile].
  split; [| split; [exact Hmfile |]].
  - refine (Write_keeps _ _ _ _ _ _ _ _ Hmeta _ Hfile). left. apply data_and_meta_differ.
  - intros k v Hk Hv.
    refine (Write_keeps _ _ _ _ _ _ _ _ Hmeta (or_introl Hk) _).
    destruct (decide (k = target (fs ds)
                (DataPath (calculatePaths (year_or_now year o) docID)))) as [-> | Hkd].
    + exfalso. unfold FileSystem.Exists in Hnew. unfold os.Stat in Hnew.
      destruct (String.eqb_spec (FileSystem.filePath (fs ds)
                  (DataPath (calculatePaths (year_or_now year o) docID))) "") as [He | _].
      * apply Write_done in Hdata. tauto.
      * cbv zeta in Hnew. unfold target in Hv. rewrite Hv in Hnew. discriminate.
    + exact (Write_keeps _ _ _ _ _ _ _ _ Hdata (or_introl Hkd) Hv).
Qed.

Lemma Store_writes_both_files_witness :
  files (snd (stored defaultDataDir))
    !! target (mkFileSystem defaultDataDir) (DataPath hello_paths) = Some (File hello).
Proof.
  refine (proj1 (proj2 (proj2 (Store_writes_both_files "2024" hello_id hello plain_meta
            (fresh defaultDataDir) (fst (stored defaultDataDir)) (opened defaultDataDir)
            (snd (stored defaultDataDir)) "2024" _)))).
  evaluate.
Defined.

(** ** The backward walk finds the nearest year *)

Lemma find_loop_nearest (ds : DocumentStore) (docID : string) (start : Z) (year : string)
    (o : OS) (n : nat) :
  forall i : Z, 1 <= i ->
    match find_loop ds docID start o n i (year_back start year (i - 1)) with
    | (y, None) =>
        exists j, i - 1 <= j < i - 1 + Z.of_nat n /\ y = year_back start year j /\
          data_exists y docID ds o = true /\
          forall k, i - 1 <= k < j -> data_exists (year_back start year k) docID ds o = false
    | (y, Some e) =>
        y = "" /\ e = NewDocError OPGet "document not found" /\
        forall k, i - 1 <= k < i - 1 + Z.of_nat n ->
          data_exists (year_back start year k) docID ds o = false
    end.
Proof.
  induction n as [| n IH]; intros i Hi.
  - cbn [find_loop]. repeat split. intros k Hk. lia.
  - cbn [find_loop]. fold (data_exists (year_back start year (i - 1)) docID ds o).
    destruct (data_exists (year_back start year (i - 1)) docID ds o) eqn:Hhere.
    + exists (i - 1). repeat split; [lia | lia | exact Hhere |]. intros k Hk. lia.
    + assert (Hnext : Go.Itoa (start - i) = year_back start year (i + 1 - 1)).
      { unfold year_back. rewrite (proj2 (Z.eqb_neq (i + 1 - 1) 0)) by lia. f_equal. lia. }
      rewrite Hnext. specialize (IH (i + 1) ltac:(lia)).
      destruct (find_loop ds docID start o n (i + 1) (year_back start year (i + 1 - 1)))
        as [y [e |]].
      * destruct IH as (Hy & He & Hnone). repeat split; [exact Hy | exact He |].
        intros k Hk. destruct (Z.eq_dec k (i - 1)) as [-> | Hne]; [exact Hhere |].
        apply Hnone. lia.
      * destruct IH as (j & Hj & Hy & Hex & Hnone). exists j.
        repeat split; [lia | lia | exact Hy | exact Hex |].
        intros k Hk. destruct (Z.eq_dec k (i - 1)) as [-> | Hne]; [exact Hhere |].
        apply Hnone. lia.
Qed.



(** ** Different documents, different files *)

Lemma Split_snoc (x c : string) :
  slash_free c -> Go.Split (x +:+ "/" +:+ c) "/" = (Go.Split x "/" ++ [c])%list.
Proof.
  intros Hc. induction x as [| a r IH].
  - change ("" +:+ "/" +:+ c) with (String "/" c). cbn [Go.Split].
    rewrite Hc. reflexivity.
  - rewrite string_app_cons. cbn [Go.Split]. rewrite IH.
    pose proof (Split_not_nil r "/") as Hnil.
    destruct (Ascii.eqb a "/"); [reflexivity |].
    destruct (Go.Split r "/") as [| w ws]; [contradiction | reflexivity].
Qed.

Lemma concat_snoc2_prefix (sep : string) (l : list string) :
  exists p, forall a b, String.concat sep (l ++ [a; b])%list = p +:+ a +:+ sep +:+ b.
Proof.
  induction l as [| x l [p IH]]; [exists ""; reflexivity |].
  exists (x +:+ sep +:+ p). intros a b. cbn [app]. specialize (IH a b).
  destruct (l ++ [a; b])%list as [| y r] eqn:Hl; [destruct l; discriminate |].
  change (String.concat sep (x :: y :: r)) with (x +:+ sep +:+ String.concat sep (y :: r)).
  rewrite IH, !string_app_assoc. reflexivity.
Qed.

Lemma slash_free_app (a b : string) : slash_free a -> slash_free b -> slash_free (a +:+ b).
Proof.
  induction a as [| x a IH]; intros Ha Hb; [exact Hb |].
  apply slash_free_cons in Ha as [Hx Ha]. rewrite string_app_cons.
  apply slash_free_String; [exact Hx | exact (IH Ha Hb)].
Qed.

Lemma slash_free_substring (s : string) (n : nat) :
  slash_free s -> slash_free (String.substring 0 n s).
Proof.
  revert n. induction s as [| x s IH]; intros n Hs; [destruct n; reflexivity |].
  apply slash_free_cons in Hs as [Hx Hs]. destruct n as [| n]; [reflexivity |].
  cbn [String.substring]. apply slash_free_String; [exact Hx | exact (IH n Hs)].
Qed.

(** [Clean] carries over the last two elements of a path when each has
    three bytes or more. *)
Lemma Clean_keeps_two (pre : string) :
  exists G, forall c1 c2,
    slash_free c1 -> (3 <= String.length c1)%nat ->
    slash_free c2 -> (3 <= String.length c2)%nat ->
    Go.Clean (pre +:+ c1 +:+ "/" +:+ c2) = G +:+ c1 +:+ "/" +:+ c2.
Proof.
  destruct (concat_snoc2_prefix "/"
              (rev (fold_left (Go.clean_step (Go.HasPrefix pre "/"))
                      (removelast (Go.Split pre "/")) []))) as [p Hp].
  exists ((if Go.HasPrefix pre "/" then "/" else "") +:+ p +:+ List.last (Go.Split pre "/") "").
  intros c1 c2 H1 L1 H2 L2. unfold Go.Clean.
  assert (Hnot : forall w c x, (3 <= String.length c)%nat -> (String.length x < 3)%nat ->
                   String.eqb (w +:+ c) x = false).
  { intros w c x Hc Hx. apply String.eqb_neq. intros Heq.
    apply (f_equal String.length) in Heq. rewrite string_app_length in Heq. lia. }
  assert (Hlong : forall w c r x, (3 <= String.length c)%nat -> (String.length x < 3)%nat ->
                   String.eqb (w +:+ c +:+ r) x = false).
  { intros w c r x Hc Hx. apply String.eqb_neq. intros Heq.
    apply (f_equal String.length) in Heq. rewrite !string_app_length in Heq. lia. }
  rewrite (Hlong pre c1 _ "") by (cbn; lia). cbv zeta.
  assert (Hhead : Go.HasPrefix (c1 +:+ "/" +:+ c2) "/" = false).
  { destruct c1 as [| x c]; [cbn in L1; lia |].
    apply slash_free_cons in H1 as [Hx _]. rewrite string_app_cons. cbn [Go.HasPrefix].
    rewrite Ascii.eqb_sym, Hx. reflexivity. }
  rewrite (HasPrefix_app pre _ Hhead).
  rewrite <- (string_app_assoc pre c1 ("/" +:+ c2)).
  rewrite (Split_snoc (pre +:+ c1) c2 H2), (Split_app pre c1 "/" H1).
  rewrite !fold_left_app. cbn [fold_left].
  rewrite (clean_step_ordinary _ _ (List.last (Go.Split pre "/") "" +:+ c1))
    by (apply Hnot; cbn; lia).
  rewrite (clean_step_ordinary _ _ c2)
    by (apply (Hnot "" c2); cbn; lia).
  cbn [rev]. rewrite <- app_assoc. cbn [app]. unfold Go.Join. rewrite Hp.
  destruct (Go.HasPrefix pre "/").
  - rewrite !string_app_assoc. reflexivity.
  - match goal with
    | |- (if String.eqb ?b "" then _ else _) = _ =>
        assert (Hbody : String.eqb b "" = false)
    end.
    { apply String.eqb_neq. intros Heq. apply (f_equal String.length) in Heq.
      rewrite !string_app_length in Heq. cbn in Heq. lia. }
    rewrite Hbody, !string_app_assoc. reflexivity.
Qed.

Lemma Join2_keeps_two (d x : string) :
  exists G, forall c1 c2,
    slash_free c1 -> (3 <= String.length c1)%nat ->
    slash_free c2 -> (3 <= String.length c2)%nat ->
    Go.filepath_Join [d; x +:+ c1 +:+ "/" +:+ c2] = G +:+ c1 +:+ "/" +:+ c2.
Proof.
  unfold Go.filepath_Join. cbn [Go.drop_empty]. destruct (String.eqb d "").
  - destruct (Clean_keeps_two x) as [G HG]. exists G. intros c1 c2 H1 L1 H2 L2.
    assert (Hne : String.eqb (x +:+ c1 +:+ "/" +:+ c2) "" = false).
    { apply String.eqb_neq. intros Heq. apply (f_equal String.length) in Heq.
      rewrite !string_app_length in Heq. cbn in Heq. lia. }
    rewrite Hne. exact (HG c1 c2 H1 L1 H2 L2).
  - destruct (Clean_keeps_two (d +:+ "/" +:+ x)) as [G HG]. exists G.
    intros c1 c2 H1 L1 H2 L2. rewrite <- (HG c1 c2 H1 L1 H2 L2).
    change (Go.Join [d; x +:+ c1 +:+ "/" +:+ c2] "/")
      with (d +:+ "/" +:+ x +:+ c1 +:+ "/" +:+ c2).
    rewrite !string_app_assoc. reflexivity.
Qed.

Lemma target_keeps_two (f : FileSystem) (x : string) :
  exists G, forall c1 c2,
    slash_free c1 -> (3 <= String.length c1)%nat ->
    slash_free c2 -> (3 <= String.length c2)%nat ->
    target f (x +:+ c1 +:+ "/" +:+ c2) = G +:+ c1 +:+ "/" +:+ c2.
Proof.
  destruct (Join2_keeps_two (rootDir f) x) as [G1 H1].
  destruct (Clean_keeps_two G1) as [G2 H2]. exists G2. intros c1 c2 S1 L1 S2 L2.
  unfold target, FileSystem.filePath. rewrite (H1 c1 c2 S1 L1 S2 L2).
  exact (H2 c1 c2 S1 L1 S2 L2).
Qed.

Lemma fname_slash_free (docID : string) : slash_free docID -> slash_free (fname_of docID).
Proof.
  intros Hs. unfold fname_of. destruct (16 <? Go.len docID); [| exact Hs].
  apply slash_free_substring, Hs.
Qed.

Lemma substring_length (s : string) (n : nat) :
  (n <= String.length s)%nat -> String.length (String.substring 0 n s) = n.
Proof.
  revert n. induction s as [| x s IH]; intros [| n] Hn; cbn in *; try reflexivity; try lia.
  rewrite IH by lia. reflexivity.
Qed.

Lemma fname_length (id1 id2 : string) :
  String.length id1 = String.length id2 ->
  String.length (fname_of id1) = String.length (fname_of id2).
Proof.
  intros Hlen. unfold fname_of, Go.len, Go.slice. rewrite Hlen.
  destruct (Z.ltb_spec 16 (Z.of_nat (String.length id2))) as [Hl | Hl]; [| exact Hlen].
  rewrite !substring_length by lia. reflexivity.
Qed.

Lemma Join5_keeps_suffix (y : string) (a : ascii) (r b2 b3 : string) :
  exists G, forall c, slash_free c -> (3 <= String.length c)%nat ->
    Go.filepath_Join [y; String a r; b2; b3; c] = G +:+ c.
Proof.
  unfold Go.filepath_Join. cbn [Go.drop_empty String.eqb]. destruct (String.eqb y "").
  - destruct (Clean_keeps_suffix (String a r +:+ "/" +:+ b2 +:+ "/" +:+ b3 +:+ "/"))
      as [G HG].
    exists G. intros c Hc Lc. rewrite <- (HG c Hc Lc).
    change (Go.Join [String a r; b2; b3; c] "/")
      with (String a r +:+ "/" +:+ b2 +:+ "/" +:+ b3 +:+ "/" +:+ c).
    rewrite !string_app_assoc. reflexivity.
  - destruct (Clean_keeps_suffix
                (y +:+ "/" +:+ String a r +:+ "/" +:+ b2 +:+ "/" +:+ b3 +:+ "/")) as [G HG].
    exists G. intros c Hc Lc. rewrite <- (HG c Hc Lc).
    change (Go.Join [y; String a r; b2; b3; c] "/")
      with (y +:+ "/" +:+ String a r +:+ "/" +:+ b2 +:+ "/" +:+ b3 +:+ "/" +:+ c).
    rewrite !string_app_assoc. reflexivity.
Qed.

(** The files of a document below the root: some path that does not
    depend on the ending, then the id, then the file name. *)
Lemma document_layout (f : FileSystem) (year docID : string) :
  slash_free docID -> (3 <= String.length docID)%nat ->
  exists G,
    target f (DataPath (calculatePaths year docID))
      = G +:+ docID +:+ "/" +:+ fname_of docID +:+ ".data" /\
    target f (MetaPath (calculatePaths year docID))
      = G +:+ docID +:+ "/" +:+ fname_of docID +:+ ".meta".
Proof.
  intros Hs Hl.
  assert (Hdir : exists G1, DirPath (calculatePaths year docID) = G1 +:+ docID /\
            DataPath (calculatePaths year docID)
              = Go.filepath_Join [G1 +:+ docID; fname_of docID +:+ ".data"] /\
            MetaPath (calculatePaths year docID)
              = Go.filepath_Join [G1 +:+ docID; fname_of docID +:+ ".meta"]).
  { unfold calculatePaths, fname_of. destruct (6 <=? Go.len docID); cbv zeta beta iota;
      cbn [DataPath MetaPath DirPath].
    - destruct (Join5_keeps_suffix year "0" ("x" +:+ Go.slice docID 0 2)
                  (Go.ToUpper (Go.slice docID 2 4))
                  (Go.Sprintf_03d (fst (Go.ParseInt (Go.slice docID 4 6) 16))))
        as [G1 HG1].
      exists G1. rewrite <- (HG1 docID Hs Hl). repeat split; reflexivity.
    - destruct (Join5_keeps_suffix year "0" "xff__" "FF__" "255__") as [G1 HG1].
      exists G1. rewrite <- (HG1 docID Hs Hl). repeat split; reflexivity. }
  destruct Hdir as (G1 & _ & -> & ->).
  assert (Hfile : exists G2, forall suf, slash_free suf -> (3 <= String.length suf)%nat ->
            Go.filepath_Join [G1 +:+ docID; fname_of docID +:+ suf]
              = G2 +:+ docID +:+ "/" +:+ fname_of docID +:+ suf).
  { destruct (Clean_keeps_two G1) as [G2 HG2]. exists G2. intros suf Hsuf Lsuf.
    unfold Go.filepath_Join. cbn [Go.drop_empty].
    assert (Hne : String.eqb (G1 +:+ docID) "" = false).
    { apply String.eqb_neq. intros Heq. apply (f_equal String.length) in Heq.
      rewrite string_app_length in Heq. cbn in Heq. lia. }
    rewrite Hne.
    change (Go.Join [G1 +:+ docID; fname_of docID +:+ suf] "/")
      with ((G1 +:+ docID) +:+ "/" +:+ fname_of docID +:+ suf).
    rewrite string_app_assoc. apply HG2; [exact Hs | exact Hl | |].
    - apply slash_free_app; [apply fname_slash_free, Hs | exact Hsuf].
    - rewrite string_app_length. lia. }
  destruct Hfile as [G2 HG2].
  destruct (target_keeps_two f G2) as [G3 HG3]. exists G3.
  assert (Hsf : forall suf, slash_free suf -> (3 <= String.length suf)%nat ->
            slash_free (fname_of docID +:+ suf) /\
            (3 <= String.length (fname_of docID +:+ suf))%nat).
  { intros suf Hsuf Lsuf. split.
    - apply slash_free_app; [apply fname_slash_free, Hs | exact Hsuf].
    - rewrite string_app_length. lia. }
  split.
  - rewrite (HG2 ".data") by first [reflexivity | cbn; lia].
    apply HG3; [exact Hs | exact Hl | apply Hsf; first [reflexivity | cbn; lia] ..].
  - rewrite (HG2 ".meta") by first [reflexivity | cbn; lia].
    apply HG3; [exact Hs | exact Hl | apply Hsf; first [reflexivity | cbn; lia] ..].
Qed.

Lemma string_app_same_length (a1 r1 a2 r2 : string) :
  String.length a1 = String.length a2 -> a1 +:+ r1 = a2 +:+ r2 -> a1 = a2.
Proof.
  revert a2. induction a1 as [| x a1 IH]; intros [| y a2] Hlen Heq;
    cbn in Hlen; try lia; [reflexivity |].
  rewrite !string_app_cons in Heq. injection Heq as -> Heq.
  f_equal. apply IH; [lia | exact Heq].
Qed.

(** X18. Two documents whose ids differ never share a file.  For ids of
    one length (three bytes or more, free of [/]), the data files differ
    and the metadata files differ, whatever the root and the years; this
    holds in particular for two ids that differ in letter case only. *)
Theorem distinct_ids_distinct_files (f : FileSystem) (year1 year2 id1 id2 : string) :
  slash_free id1 -> slash_free id2 ->
  String.length id1 = String.length id2 -> (3 <= String.length id1)%nat ->
  id1 <> id2 ->
  target f (DataPath (calculatePaths year1 id1))
    <> target f (DataPath (calculatePaths year2 id2)) /\
  target f (MetaPath (calculatePaths year1 id1))
    <> target f (MetaPath (calculatePaths year2 id2)).
Proof.
  intros S1 S2 Hlen L1 Hne.
  destruct (document_layout f year1 id1 S1 L1) as (G1 & Hd1 & Hm1).
  destruct (document_layout f year2 id2 S2 ltac:(lia)) as (G2 & Hd2 & Hm2).
  rewrite Hd1, Hd2, Hm1, Hm2.
  pose proof (fname_length id1 id2 Hlen) as Hfl.
  split.
  - apply (ends_with_differ _ _ (id1 +:+ "/" +:+ fname_of id1 +:+ ".data")
                                (id2 +:+ "/" +:+ fname_of id2 +:+ ".data")).
    + rewrite !string_app_length. cbn. lia.
    + intros Heq. apply Hne. exact (string_app_same_length _ _ _ _ Hlen Heq).
    + exists G1. reflexivity.
    + exists G2. reflexivity.
  - apply (ends_with_differ _ _ (id1 +:+ "/" +:+ fname_of id1 +:+ ".meta")
                                (id2 +:+ "/" +:+ fname_of id2 +:+ ".meta")).
    + rewrite !string_app_length. cbn. lia.
    + intros Heq. apply Hne. exact (string_app_same_length _ _ _ _ Hlen Heq).
    + exists G1. reflexivity.
    + exists G2. reflexivity.
Qed.

Lemma distinct_ids_distinct_files_witness :
  target (mkFileSystem defaultDataDir) (DataPath (calculatePaths "2024" hello_id))
    <> target (mkFileSystem defaultDataDir) (DataPath (calculatePaths "2024" HELLO_ID)).
Proof.
  refine (proj1 (distinct_ids_distinct_files (mkFileSystem defaultDataDir) "2024" "2024"
                   hello_id HELLO_ID _ _ _ _ _)).
  - reflexivity.
  - reflexivity.
  - reflexivity.
  - vm_compute. lia.
  - discriminate.
Defined.

(** ** The registry of storage drivers *)

(** X19. A driver that [Register] accepted is the one [Open] connects
    with under that name; the other names open as before; a second
    [Register] of the name panics, whatever the driver.  [Register] accepts
    a driver only under a name that was free. *)
Theorem Register_then_Open {Storer : Type} (name : string)
    (driver : option (store.Driver Storer)) (drivers drivers' : gmap string (store.Driver Storer))
    (cfg : string) :
  store.Register name driver drivers = fsdriver.Returns drivers' ->
  exists dr, driver = Some dr /\ drivers !! name = None /\
    store.Open name cfg drivers'
      = fsdriver.Returns (match store.Conn dr cfg with
                 | (_, Some err) => (None, Some err)
                 | (op, None) => (op, None)
                 end) /\
    (forall other, other <> name ->
       store.Open other cfg drivers' = store.Open other cfg drivers) /\
    (forall again, exists msg, store.Register name again drivers' = fsdriver.Panics msg).
Proof.
  unfold store.Register. intros Hr.
  destruct driver as [dr |]; [| discriminate].
  destruct (drivers !! name) eqn:Hfree; [discriminate |].
  injection Hr as <-. exists dr. split; [reflexivity |]. split; [reflexivity |].
  split; [| split].
  - unfold store.Open. rewrite lookup_insert_eq. destruct (store.Conn dr cfg) as [op [e |]];
      reflexivity.
  - intros other Hne. unfold store.Open. rewrite lookup_insert_ne by congruence. reflexivity.
  - intros [d2 |]; [| eexists; reflexivity].
    rewrite lookup_insert_eq. eexists. reflexivity.
Qed.

Lemma Register_then_Open_witness :
  store.Open "fs" "{}" (<["fs" := store.mkDriver unit (fun _ => (Some tt, None))]> ∅)
    = fsdriver.Returns (Some tt, None).
Proof.
  assert (Hr : store.Register "fs" (Some (store.mkDriver unit (fun _ => (Some tt, None)))) ∅
               = fsdriver.Returns (<["fs" := store.mkDriver unit (fun _ => (Some tt, None))]> ∅))
    by (vm_compute; reflexivity).
  destruct (Register_then_Open "fs" _ ∅ _ "{}" Hr) as (dr & Hdr & _ & Hopen & _).
  injection Hdr as <-. exact Hopen.
Defined.

Lemma insert_name_elem (x name : string) (l : list string) :
  x ∈ store.insert_name name l <-> x = name \/ x ∈ l.
Proof.
  induction l as [| y l IH]; cbn [store.insert_name].
  - rewrite list_elem_of_singleton, elem_of_nil. tauto.
  - destruct (String.leb name y); rewrite !elem_of_cons; [tauto |]. rewrite IH. tauto.
Qed.

Lemma sort_Strings_elem (x : string) (l : list string) :
  x ∈ store.sort_Strings l <-> x ∈ l.
Proof.
  induction l as [| y l IH]; [reflexivity |]. cbn [store.sort_Strings fold_right].
  fold (store.sort_Strings l). rewrite insert_name_elem, IH, elem_of_cons. tauto.
Qed.

Lemma insert_name_NoDup (name : string) (l : list string) :
  name ∉ l -> NoDup l -> NoDup (store.insert_name name l).
Proof.
  induction l as [| y l IH]; intros Hin Hnd; cbn [store.insert_name].
  - apply NoDup_singleton.
  - destruct (String.leb name y); [apply NoDup_cons; split; assumption |].
    apply NoDup_cons in Hnd as [Hy Hl]. apply not_elem_of_cons in Hin as [Hne Hin].
    apply NoDup_cons. split.
    + rewrite insert_name_elem. intros [-> | Hyl]; [congruence | contradiction].
    + exact (IH Hin Hl).
Qed.

Lemma sort_Strings_NoDup (l : list string) : NoDup l -> NoDup (store.sort_Strings l).
Proof.
  induction l as [| y l IH]; intros Hnd; [constructor |].
  apply NoDup_cons in Hnd as [Hy Hl]. cbn [store.sort_Strings fold_right].
  fold (store.sort_Strings l). apply insert_name_NoDup; [| exact (IH Hl)].
  rewrite sort_Strings_elem. exact Hy.
Qed.

Lemma insert_name_ascending (name : string) (l : list string) :
  store.ascending l = true -> store.ascending (store.insert_name name l) = true.
Proof.
  induction l as [| y l IH]; intros Hasc; [reflexivity |].
  cbn [store.insert_name]. destruct (String.leb name y) eqn:Hle.
  - cbn [store.ascending]. rewrite Hle. exact Hasc.
  - assert (Hyn : String.leb y name = true).
    { destruct (String.leb_total name y) as [Ht | Ht]; [congruence | exact Ht]. }
    destruct l as [| z l].
    + cbn [store.insert_name store.ascending]. rewrite Hyn. reflexivity.
    + cbn [store.ascending] in Hasc. apply andb_prop in Hasc as [Hyz Hrest].
      specialize (IH Hrest). cbn [store.insert_name] in IH |- *.
      destruct (String.leb name z).
      * cbn [store.ascending] in IH |- *. rewrite Hyn. exact IH.
      * cbn [store.ascending] in IH |- *. rewrite Hyz. exact IH.
Qed.

Lemma sort_Strings_ascending (l : list string) : store.ascending (store.sort_Strings l) = true.
Proof.
  induction l as [| y l IH]; [reflexivity |]. cbn [store.sort_Strings fold_right].
  apply insert_name_ascending. exact IH.
Qed.

(** X20. [Drivers] lists the registered names, each of them once and no
    other, in ascending order. *)
Theorem Drivers_lists_the_registry {Storer : Type}
    (drivers : gmap string (store.Driver Storer)) :
  (forall name, name ∈ store.Drivers drivers <-> is_Some (drivers !! name)) /\
  NoDup (store.Drivers drivers) /\
  store.ascending (store.Drivers drivers) = true.
Proof.
  unfold store.Drivers. split; [| split].
  - intros name. rewrite sort_Strings_elem.
    change (List.map fst (map_to_list drivers)) with (fst <$> map_to_list drivers).
    rewrite list_elem_of_fmap. split.
    + intros [[k v] [-> Hkv]]. apply elem_of_map_to_list in Hkv. eexists. exact Hkv.
    + intros [v Hv]. exists (name, v). split; [reflexivity |].
      apply elem_of_map_to_list. exact Hv.
  - apply sort_Strings_NoDup. apply NoDup_fst_map_to_list.
  - apply sort_Strings_ascending.
Qed.

(** ** The configuration and the depths of the store *)




(** ** A root of one byte *)





(** ** Which failures count as not found *)

(** X23. What the handlers answer with "not found".  When the existence
    test of the adapter fails for the data file, the error of [Get] is one
    the handlers class as not found; and every failure of [GetFromYear] and
    [GetMetaFromYear] to settle the year is classed so too, whether the
    walk found nothing or the year is not a number. *)
Theorem absent_document_is_not_found
    (json_Unmarshal : bytes -> DocumentMeta -> DocumentMeta * option error)
    (year docID lang : string) (ds : DocumentStore) (o : OS) :
  (FileSystem.Exists (fs ds)
     (FileSystem.filePath (fs ds) (DataPath (calculatePaths year (Go.ToLower docID)))) o
     = false ->
   exists e, Get json_Unmarshal year docID lang ds o = ([], None, Some e) /\
             is_not_found e = true) /\
  (forall y e0, resolveYear year (Go.ToLower docID) ds o = (y, Some e0) ->
   exists e e', GetFromYear json_Unmarshal year docID lang ds o = ([], None, "", Some e) /\
                is_not_found e = true /\
                GetMetaFromYear json_Unmarshal year docID lang ds o = (None, "", Some e') /\
                is_not_found e' = true).
Proof.
  split.
  - intros Habsent. unfold Get, getDocumentData, FileSystem.Read. cbv zeta.
    rewrite Habsent. cbn [negb]. eexists. split; reflexivity.
  - intros y e0 Hres. unfold GetFromYear, GetMetaFromYear. cbv zeta. rewrite Hres.
    exists (Errorf "document not found" e0), (Errorf "document not found" e0).
    repeat split; reflexivity.
Qed.

Lemma absent_document_is_not_found_witness :
  exists e, Get lenient_json "2024" hello_id "" (fst (stored defaultDataDir))
              (snd (stored defaultDataDir)) = ([], None, Some e) /\
            is_not_found e = true.
Proof.
  refine (proj1 (absent_document_is_not_found lenient_json "2024" hello_id ""
                   (fst (stored defaultDataDir)) (snd (stored defaultDataDir))) _).
  evaluate.
Defined.

(** ** Opening a store *)

Lemma mkdir_chain_done (chain : list string) (t t' : gmap string inode) (q : string) :
  os.mkdir_chain chain t = (None, t') -> q ∈ chain -> t' !! q = Some Directory.
Proof.
  revert t. induction chain as [| x chain IH]; intros t Hm Hq; [inversion Hq |].
  cbn [os.mkdir_chain] in Hm.
  assert (Hstep : forall t1, os.mkdir_chain chain t1 = (None, t') ->
                    t1 !! x = Some Directory -> t' !! q = Some Directory).
  { intros t1 Hrest Hx. apply elem_of_cons in Hq as [-> | Hq]; [| exact (IH t1 Hrest Hq)].
    pose proof (mkdir_chain_keeps chain t1 x Directory Hx) as Hk.
    rewrite Hrest in Hk. exact Hk. }
  destruct (t !! x) as [[data |] |] eqn:Hx.
  - discriminate.
  - exact (Hstep t Hm Hx).
  - apply (Hstep _ Hm). apply lookup_insert_eq.
Qed.

(** X24. A store that [NewDocumentStore] returns: its root directory is
    on the disk, its cache is empty, both depths are 0, its adapter is
    rooted at the path that was given, and whatever was on the disk is
    still there. *)
Theorem NewDocumentStore_opens (rootPath : string) (o o1 : OS) (ds : DocumentStore) :
  NewDocumentStore rootPath o = (Some ds, None, o1) ->
  rootPath <> "" /\
  files o1 !! Go.Clean rootPath = Some Directory /\
  fs ds = mkFileSystem rootPath /\ cache ds = ∅ /\
  lookbackYears ds = 0 /\ existbackYears ds = 0 /\
  (forall k v, files o !! k = Some v -> files o1 !! k = Some v).
Proof.
  unfold NewDocumentStore, FileSystem.NewFileSystem. intros Hnew.
  pose proof (fun k v => MkdirAll_keeps rootPath o k v) as Hkeep.
  destruct (os.MkdirAll rootPath o) as [[e |] o2] eqn:Hmk; [discriminate |].
  injection Hnew as <- <-. cbn [snd] in Hkeep.
  unfold os.MkdirAll in Hmk.
  destruct (String.eqb_spec rootPath "") as [_ | Hne]; [discriminate |].
  cbv zeta in Hmk.
  destruct (os.mkdir_chain (os.ancestors (Go.Clean rootPath) ++ [Go.Clean rootPath])
              (files o)) as [err t] eqn:Hchain.
  injection Hmk as -> <-.
  repeat split; try assumption.
  cbn [files os.set_files]. apply (mkdir_chain_done _ _ _ _ Hchain).
  apply elem_of_app. right. apply list_elem_of_singleton. reflexivity.
Qed.

Lemma NewDocumentStore_opens_witness :
  files (opened defaultDataDir) !! Go.Clean defaultDataDir = Some Directory.
Proof.
  refine (proj1 (proj2 (NewDocumentStore_opens defaultDataDir (os.boot "2025")
                          (opened defaultDataDir) (fresh defaultDataDir) _))).
  evaluate.
Defined.

(** ** What a positive answer of [ExistsFromYear] rests on *)

(** X25. [ExistsFromYear] answers true with a year only if the id (in
    lowercase) is cached under that year, or is not cached and its data
    path is on the disk under that year; when it answers false the year is
    empty and the id is not cached. *)
Theorem ExistsFromYear_sound (year docID : string) (ds : DocumentStore) (o : OS) :
  match ExistsFromYear year docID ds o with
  | (y, true) =>
      cache ds !! Go.ToLower docID = Some y \/
      (cache ds !! Go.ToLower docID = None /\
       data_exists y (Go.ToLower docID) ds o = true)
  | (y, false) => y = "" /\ cache ds !! Go.ToLower docID = None
  end.
Proof.
  unfold ExistsFromYear. cbv zeta.
  destruct (cache ds !! Go.ToLower docID) as [y |] eqn:Hc; [left; reflexivity |].
  unfold findDocumentYear. cbv zeta.
  destruct (Go.Atoi (year_or_now year o)) as [start [pe |]]; [split; reflexivity |].
  pose proof (find_loop_nearest ds (Go.ToLower docID) start (year_or_now year o) o
                (Z.to_nat (existbackYears ds)) 1 ltac:(lia)) as Hloop.
  change (year_back start (year_or_now year o) (1 - 1)) with (year_or_now year o) in Hloop.
  destruct (find_loop ds (Go.ToLower docID) start o (Z.to_nat (existbackYears ds)) 1
              (year_or_now year o)) as [y [e |]].
  - split; reflexivity.
  - destruct Hloop as (j & _ & _ & Hex & _). right. split; [reflexivity | exact Hex].
Qed.
